(** * ContentSocialSwarm: platform agents, vector store and executive agent

    A shallow embedding of the Python sources

      - [src/agents/platform_agents/{twitter,facebook,instagram,tiktok}_agent.py]
      - [src/memory/vector_store.py]
      - [src/agents/executive_agent.py]

    followed by the properties of the content-adaptation and publishing
    pipeline.  Python [int]s are [Z], [str] is [string], a [list] is a
    [list]; a [dict] whose keys are fixed by the code is a record of
    optional fields, a [dict] used as a map is a [gmap].  Exceptions,
    logging and the wall clock are threaded through one small monad. *)

From stdpp Require Import gmap strings list pretty.

Local Open Scope Z_scope.

(** ** Python primitives *)

Module Py.

(** [len(s)] and [len(l)]. *)
Definition len (s : string) : Z := Z.of_nat (String.length s).
Definition llen {A} (l : list A) : Z := Z.of_nat (length l).

Fixpoint str_take (n : nat) (s : string) : string :=
  match n, s with
  | S n', String ch s' => String ch (str_take n' s')
  | _, _ => ""
  end.

(** The stop index of a slice [x[:k]] over a sequence of [n] items: a
    negative [k] counts from the end, and the result is clamped at 0. *)
Definition slice_stop (k : Z) (n : nat) : nat :=
  if k <? 0 then Z.to_nat (Z.of_nat n + k) else Z.to_nat k.

(** [s[:k]] on a [str] and [l[:k]] on a [list]. *)
Definition str_upto (s : string) (k : Z) : string :=
  str_take (slice_stop k (String.length s)) s.
Definition list_upto {A} (l : list A) (k : Z) : list A :=
  take (slice_stop k (length l)) l.

(** [sep.join(parts)]. *)
Definition join (sep : string) (parts : list string) : string :=
  String.concat sep parts.

(** [s * n]; used to write long inputs down. *)
Fixpoint str_repeat (s : string) (n : nat) : string :=
  match n with
  | O => ""
  | S n' => s +:+ str_repeat s n'
  end.

(** The values that end up in the result dictionaries. *)
Inductive pyval :=
| VNone
| VStr (s : string)
| VInt (n : Z)
| VList (l : list string).

Global Instance pyval_eq_dec : EqDecision pyval.
Proof. solve_decision. Defined.

(** [repr(s)] of a [str], a character being a code point below 256: the
    text goes between single quotes, or between double quotes when it holds
    a single quote and no double quote; the quote in use and the backslash
    are escaped, tab, line feed and carriage return are written with their
    letter, and every other character that is not printable as a two-digit
    hexadecimal escape. *)
Definition backslash : Ascii.ascii := Ascii.ascii_of_nat 92.
Definition single_quote : Ascii.ascii := Ascii.ascii_of_nat 39.
Definition double_quote : Ascii.ascii := Ascii.ascii_of_nat 34.

Definition occurs (ch : Ascii.ascii) (s : string) : bool :=
  existsb (Ascii.eqb ch) (String.list_ascii_of_string s).

Definition repr_quote (s : string) : Ascii.ascii :=
  if occurs single_quote s && negb (occurs double_quote s)
  then double_quote else single_quote.

Definition hex_digit (n : nat) : Ascii.ascii :=
  default (Ascii.ascii_of_nat 48) (String.get n "0123456789abcdef").

Definition isprintable (code : nat) : bool :=
  ((32 <=? code) && (code <? 127))%nat
  || ((161 <=? code) && negb (code =? 173))%nat.

Definition repr_char (quote ch : Ascii.ascii) : string :=
  let code := Ascii.nat_of_ascii ch in
  if Ascii.eqb ch quote || Ascii.eqb ch backslash
  then String backslash (String ch "")
  else if (code =? 9)%nat then String backslash "t"
  else if (code =? 10)%nat then String backslash "n"
  else if (code =? 13)%nat then String backslash "r"
  else if isprintable code then String ch ""
  else String backslash
         (String (Ascii.ascii_of_nat 120)
            (String (hex_digit (code / 16)) (String (hex_digit (code mod 16)) ""))).

Definition repr_str (s : string) : string :=
  let quote := repr_quote s in
  String quote
    (String.concat "" (repr_char quote <$> String.list_ascii_of_string s)
     +:+ String quote "").

(** [str(v)], as an f-string renders a value; a list shows the [repr] of
    its items. *)
Definition str_of_pyval (v : pyval) : string :=
  match v with
  | VNone => "None"
  | VStr s => s
  | VInt n => pretty n
  | VList l => "[" +:+ String.concat ", " (repr_str <$> l) +:+ "]"
  end.

(** The line feed of ["\n"]. *)
Definition nl : string := String (Ascii.ascii_of_nat 10) "".

(** Truth values of a [str], a [list] and an optional [dict]. *)
Definition truthy_str (s : option string) : bool :=
  match s with
  | Some (String _ _) => true
  | _ => false
  end.
Definition truthy_list {A} (l : list A) : bool :=
  match l with
  | [] => false
  | _ :: _ => true
  end.
Definition truthy_dict (d : option (gmap string pyval)) : bool :=
  match d with
  | Some m => negb (bool_decide (m = ∅))
  | None => false
  end.

(** Exceptions, by class, and [str(e)]. *)
Inductive exn :=
| Exception (msg : string)
| KeyError (key : string)
| IndexError (msg : string)
| GraphRecursionError (msg : string).

Definition str_of_exn (e : exn) : string :=
  match e with
  | Exception msg => msg
  | KeyError key => "'" +:+ key +:+ "'"
  | IndexError msg => msg
  | GraphRecursionError msg => msg
  end.

(** [logging] levels and records. *)
Inductive level := DEBUG | INFO | WARNING | ERROR.

(** What a call can observe and change outside its arguments: the log, and
    the wall clock, given as the readings that successive calls of
    [datetime.now()] will return. *)
Record world := World {
  logged : list (level * string);
  wall : nat -> Z;
  reads : nat
}.

Inductive outcome (A : Type) :=
| Return (a : A)
| Raise (e : exn).
Arguments Return {A} a.
Arguments Raise {A} e.

(** A computation that may log, read the clock and raise. *)
Definition M (A : Type) : Type := world -> outcome A * world.

Definition ret {A} (a : A) : M A := fun w => (Return a, w).
Definition raise {A} (e : exn) : M A := fun w => (Raise e, w).
Definition bind {A B} (m : M A) (k : A -> M B) : M B :=
  fun w =>
    match m w with
    | (Return a, w') => k a w'
    | (Raise e, w') => (Raise e, w')
    end.

(** [try: body except Exception as e: handler]. *)
Definition try_except {A} (body : M A) (handler : exn -> M A) : M A :=
  fun w =>
    match body w with
    | (Return a, w') => (Return a, w')
    | (Raise e, w') => handler e w'
    end.

(** The world after one more log record, and [logger.<level>(msg)]. *)
Definition logging (lv : level) (msg : string) (w : world) : world :=
  World (logged w ++ [(lv, msg)]) (wall w) (reads w).
Definition log (lv : level) (msg : string) : M unit :=
  fun w => (Return tt, logging lv msg w).

(** The value of a call that returned; [None] for one that raised. *)
Definition returned {A} (o : outcome A) : option A :=
  match o with
  | Return a => Some a
  | Raise _ => None
  end.

(** [datetime.now()]. *)
Definition datetime_now : M Z :=
  fun w => (Return (wall w (reads w)), World (logged w) (wall w) (S (reads w))).

(** [d[key]] and [l[i]]. *)
Definition getitem (d : gmap string pyval) (key : string) : M pyval :=
  match d !! key with
  | Some v => ret v
  | None => raise (KeyError key)
  end.
Definition getindex {A} (l : list A) (i : nat) : M A :=
  match l !! i with
  | Some a => ret a
  | None => raise (IndexError "list index out of range")
  end.

End Py.

Export Py.

Notation "'let!' x ':=' m 'in' k" := (bind m (fun x => k))
  (at level 10, x name, m at level 100, k at level 200).
Notation "m ';;' k" := (bind m (fun _ => k))
  (at level 100, k at level 200, right associativity).

(** ** Objects, nested values and HTTP replies *)

Module Obj.

Local Set Warnings "-register-all".

(** A JSON-like value, for the nested dictionaries that the analytics and
    CRM calls build. *)
Inductive json :=
| JNone
| JStr (s : string)
| JInt (n : Z)
| JBool (b : bool)
| JList (l : list json)
| JDict (d : list (string * json)).

(** What [requests.get] and [requests.post] reply: [response.status_code],
    [response.text] and [response.json()]. *)
Record HttpResponse := {
  status_code : Z;
  body : string;
  json_body : M (gmap string pyval)
}.

(** A method that may assign attributes of [self]: a computation over the
    attributes [S], which keeps the assignments made before an exception. *)
Definition Meth (S A : Type) : Type := S -> world -> outcome A * S * world.

Definition mret {S A} (a : A) : Meth S A := fun s w => (Return a, s, w).
Definition mbind {S A B} (m : Meth S A) (k : A -> Meth S B) : Meth S B :=
  fun s w =>
    match m s w with
    | (Return a, s', w') => k a s' w'
    | (Raise e, s', w') => (Raise e, s', w')
    end.
Definition mtry_except {S A} (body : Meth S A) (handler : exn -> Meth S A)
    : Meth S A :=
  fun s w =>
    match body s w with
    | (Return a, s', w') => (Return a, s', w')
    | (Raise e, s', w') => handler e s' w'
    end.

(** A call that does not touch [self], and [self.<attributes> = s']. *)
Definition call {S A} (m : M A) : Meth S A :=
  fun s w => let '(o, w') := m w in (o, s, w').
Definition assign {S} (update : S -> S) : Meth S unit :=
  fun s w => (Return tt, update s, w).
Definition mraise {S A} (e : exn) : Meth S A := fun s w => (Raise e, s, w).
Definition inspect {S} : Meth S S := fun s w => (Return s, s, w).

(** A call that returns or raises without touching the world. *)
Definition pure_call {A} (o : outcome A) : M A := fun w => (o, w).

(** The attributes a method leaves, and what it returned or raised. *)
Definition attributes {S A} (r : outcome A * S * world) : S := snd (fst r).
Definition result {S A} (r : outcome A * S * world) : outcome A := fst (fst r).

End Obj.

Export Obj.

Notation "'let!!' x ':=' m 'in' k" := (mbind m (fun x => k))
  (at level 10, x name, m at level 100, k at level 200).
Notation "m ';;;' k" := (mbind m (fun _ => k))
  (at level 100, k at level 200, right associativity).

(** ** Content items *)

(** The content dictionary the agents pass around, restricted to the keys
    they read; [None] is an absent key.  [content.copy()] is the identity on
    this immutable value. *)
Record content := Content {
  text : option string;
  hashtags : option (list string);
  image_url : option string
}.

(** [content.get("text", "")] and [content.get("hashtags", [])]. *)
Definition get_text (c : content) : string := default "" (text c).
Definition get_hashtags (c : content) : list string := default [] (hashtags c).

(** [content["text"] = s] and [content["hashtags"] = l]. *)
Definition set_text (s : string) (c : content) : content :=
  Content (Some s) (hashtags c) (image_url c).
Definition set_hashtags (l : list string) (c : content) : content :=
  Content (text c) (Some l) (image_url c).

(** [f"#{tag}"]. *)
Definition hash_tag (tag : string) : string := "#" +:+ tag.

(** ** Content as an arbitrary dictionary *)

(** The agents' signatures take [Dict[str, Any]]: a key may hold a value of
    any type.  The values here are [None], a [str], an [int] or a list of
    [str], and the operations are the ones the publishing code applies to
    them, with the [TypeError] each raises on a value of the wrong type; as
    only the text of an error is ever used, it is raised as [Exception]. *)
Module Dyn.

(** [type(v).__name__] and [bool(v)]. *)
Definition type_name (v : pyval) : string :=
  match v with
  | VNone => "NoneType"
  | VStr _ => "str"
  | VInt _ => "int"
  | VList _ => "list"
  end.

Definition truthy (v : pyval) : bool :=
  match v with
  | VNone => false
  | VStr s => truthy_str (Some s)
  | VInt n => negb (n =? 0)
  | VList l => truthy_list l
  end.

(** The characters of a [str], each as a [str]. *)
Definition chars (s : string) : list string :=
  (fun ch => String ch "") <$> String.list_ascii_of_string s.

(** The items [for tag in v] runs over. *)
Definition iterate (v : pyval) : M (list string) :=
  match v with
  | VList l => ret l
  | VStr s => ret (chars s)
  | _ => raise (Exception ("'" +:+ type_name v +:+ "' object is not iterable"))
  end.

(** [v += s] for a [str] [s]: concatenation on a [str], extension by the
    characters of [s] on a list. *)
Definition iadd_str (v : pyval) (s : string) : M pyval :=
  match v with
  | VStr t => ret (VStr (t +:+ s))
  | VList l => ret (VList (l ++ chars s))
  | _ => raise (Exception ("unsupported operand type(s) for +=: '"
                           +:+ type_name v +:+ "' and 'str'"))
  end.

(** [hash(v)]: [hash] on a [str], [hash_other] on [None] and on an [int];
    a list is not hashable. *)
Definition hash_value (hash : string -> Z) (hash_other : pyval -> Z)
    (v : pyval) : M Z :=
  match v with
  | VStr s => ret (hash s)
  | VList _ => raise (Exception "unhashable type: 'list'")
  | _ => ret (hash_other v)
  end.

(** The dictionary that a typed content item is. *)
Definition set_key (key : string) (v : option pyval) (d : gmap string pyval)
    : gmap string pyval :=
  match v with
  | Some v => <[ key := v ]> d
  | None => d
  end.

Definition as_dict (c : content) : gmap string pyval :=
  set_key "text" (VStr <$> text c)
    (set_key "hashtags" (VList <$> hashtags c)
       (set_key "image_url" (VStr <$> image_url c) ∅)).

End Dyn.

(** ** twitter_agent.py: optimize_content *)

Module TwitterAgent.

Definition hashtag_text (c : content) : string :=
  join " " (hash_tag <$> list_upto (get_hashtags c) 5).

(** [280 - len(hashtag_text) - 2]. *)
Definition available_chars (c : content) : Z :=
  280 - len (hashtag_text c) - 2.

Definition optimize_content (c : content) : content :=
  let optimized := c in
  let text := get_text optimized in
  let hashtags := get_hashtags optimized in
  let available_chars := available_chars c in
  let optimized :=
    if len text >? available_chars
    then set_text (str_upto text (available_chars - 3) +:+ "...") optimized
    else optimized in
  set_hashtags (list_upto hashtags 5) optimized.

(** The [tweepy.Client] the agent holds: [response.data] is a dictionary
    or [None]; the call itself may raise. *)
Record Response := { data : option (gmap string pyval) }.
Record Client := { create_tweet : string -> M Response }.

(** [self]: [self.client] is [None] until [initialize] sets it. *)
Record agent := Agent { client : option Client }.

Definition publish_content (self : agent) (content : content)
    (client_id : string) : M (gmap string pyval) :=
  try_except
    (match client self with
     | None => raise (Exception "Twitter client not initialized")
     | Some cl =>
         let text := get_text content in
         let hashtags := get_hashtags content in
         let tweet_text :=
           if truthy_list hashtags
           then text +:+ nl +:+ nl +:+ join " " (hash_tag <$> hashtags)
           else text in
         let tweet_text :=
           if len tweet_text >? 280
           then str_upto tweet_text 277 +:+ "..."
           else tweet_text in
         let! response := create_tweet cl tweet_text in
         if truthy_dict (data response)
         then
           let! post_id := getitem (default ∅ (data response)) "id" in
           ret {[ "status" := VStr "success";
                  "platform" := VStr "twitter";
                  "post_id" := post_id;
                  "client_id" := VStr client_id;
                  "text" := VStr tweet_text ]}
         else raise (Exception "Tweet creation failed - no response data")
     end)
    (fun e =>
       log ERROR ("Twitter publishing failed: " +:+ str_of_exn e) ;;
       ret {[ "status" := VStr "failed";
              "platform" := VStr "twitter";
              "error" := VStr (str_of_exn e);
              "client_id" := VStr client_id ]}).


(** The text [publish_content] hands to [create_tweet]. *)
Definition compose_tweet (content : content) : string :=
  let text := get_text content in
  let hashtags := get_hashtags content in
  let tweet_text :=
    if truthy_list hashtags
    then text +:+ nl +:+ nl +:+ join " " (hash_tag <$> hashtags)
    else text in
  if len tweet_text >? 280
  then str_upto tweet_text 277 +:+ "..."
  else tweet_text.

(** The other calls the agent makes on the client.  [new_client] is
    [tweepy.Client(...)] on the configured credentials; [get_me] replies
    like [create_tweet]; [get_tweet] replies with the tweet, whose
    [public_metrics] are absent unless the field was returned.  A tweet that
    is there counts as true: it always carries its id. *)
Record Tweet := { public_metrics : option (gmap string Z) }.
Record TweetResponse := { tweet_data : option Tweet }.
Record api := {
  new_client : M Client;
  get_me : Client -> M Response;
  get_tweet : Client -> string -> list string -> M TweetResponse
}.

Definition initialize (tweepy : api) : Meth agent unit :=
  mtry_except
    (let!! cl := call (new_client tweepy) in
     assign (fun _ => Agent (Some cl)) ;;;
     let!! me := call (get_me tweepy cl) in
     if truthy_dict (data me)
     then call (log INFO "Twitter Agent initialized successfully")
     else call (log ERROR "Twitter Agent initialization failed: Unable to verify credentials"))
    (fun e =>
       call (log ERROR ("Twitter Agent initialization failed: " +:+ str_of_exn e))).

Definition shutdown : Meth agent unit :=
  assign (fun _ => Agent None) ;;;
  call (log INFO "Twitter Agent shutdown complete").

(** [metrics.get(key, 0)]. *)
Definition counter (metrics : gmap string Z) (key : string) : json :=
  JInt (default 0 (metrics !! key)).

(** Reading [.get] off a [public_metrics] that is [None] raises an
    [AttributeError]; only its text is ever used. *)
Definition get_analytics (tweepy : api) (self : agent) (post_id : string)
    : M (gmap string json) :=
  try_except
    (match client self with
     | None => raise (Exception "Twitter client not initialized")
     | Some cl =>
         let! tweet :=
           get_tweet tweepy cl post_id ["public_metrics"; "created_at"] in
         match tweet_data tweet with
         | Some t =>
             match public_metrics t with
             | Some metrics =>
                 ret {[ "platform" := JStr "twitter";
                        "post_id" := JStr post_id;
                        "insights" := JDict
                          [("retweets", counter metrics "retweet_count");
                           ("likes", counter metrics "like_count");
                           ("replies", counter metrics "reply_count");
                           ("quotes", counter metrics "quote_count");
                           ("impressions", counter metrics "impression_count")] ]}
             | None =>
                 raise (Exception "'NoneType' object has no attribute 'get'")
             end
         | None => raise (Exception "Unable to fetch tweet data")
         end
     end)
    (fun e =>
       log ERROR ("Twitter analytics failed: " +:+ str_of_exn e) ;;
       ret {[ "platform" := JStr "twitter";
              "post_id" := JStr post_id;
              "error" := JStr (str_of_exn e) ]}).

End TwitterAgent.

(** ** facebook_agent.py: optimize_content *)

Module FacebookAgent.

Definition optimize_content (c : content) : content :=
  let optimized := c in
  let optimized :=
    if len (get_text optimized) >? 500
    then set_text (str_upto (get_text optimized) 497 +:+ "...") optimized
    else optimized in
  let hashtags := get_hashtags optimized in
  if llen hashtags >? 5
  then set_hashtags (list_upto hashtags 5) optimized
  else optimized.

(** The [facebook.GraphAPI] handle: [put_object(parent_object,
    connection_name, **data)] returns the reply dictionary or raises. *)
Record GraphAPI := {
  put_object : string -> string -> gmap string pyval -> M (gmap string pyval)
}.

(** [self]: [self.graph] is [None] until [initialize] sets it. *)
Record agent := Agent { graph : option GraphAPI }.

Definition publish_content (self : agent) (content : content)
    (client_id : string) : M (gmap string pyval) :=
  try_except
    (match graph self with
     | None => raise (Exception "Facebook Graph API not initialized")
     | Some g =>
         let post_data : gmap string pyval :=
           {[ "message" := VStr (get_text content) ]} in
         let post_data :=
           if truthy_str (image_url content)
           then <[ "link" := VStr (default "" (image_url content)) ]> post_data
           else post_data in
         let! result := put_object g "me" "feed" post_data in
         ret {[ "status" := VStr "success";
                "platform" := VStr "facebook";
                "post_id" := default VNone (result !! "id");
                "client_id" := VStr client_id ]}
     end)
    (fun e =>
       log ERROR ("Facebook publishing failed: " +:+ str_of_exn e) ;;
       ret {[ "status" := VStr "failed";
              "platform" := VStr "facebook";
              "error" := VStr (str_of_exn e);
              "client_id" := VStr client_id ]}).


(** The other calls the agent makes: [facebook.GraphAPI(access_token=...,
    version="18.0")] and [graph.get_object(id=..., metric=...)]. *)
Record api := {
  new_graph : M GraphAPI;
  get_object : GraphAPI -> string -> string -> M json
}.

Definition initialize (facebook : api) : Meth agent unit :=
  mtry_except
    (let!! g := call (new_graph facebook) in
     assign (fun _ => Agent (Some g)) ;;;
     call (log INFO "Facebook Agent initialized successfully"))
    (fun e =>
       call (log ERROR ("Facebook Agent initialization failed: " +:+ str_of_exn e))).

Definition shutdown : Meth agent unit :=
  assign (fun _ => Agent None) ;;;
  call (log INFO "Facebook Agent shutdown complete").

Definition get_analytics (facebook : api) (self : agent) (post_id : string)
    : M (gmap string json) :=
  try_except
    (match graph self with
     | None => raise (Exception "Facebook Graph API not initialized")
     | Some g =>
         let! insights :=
           get_object facebook g (post_id +:+ "/insights")
             "post_impressions,post_engaged_users,post_clicks" in
         ret {[ "platform" := JStr "facebook";
                "post_id" := JStr post_id;
                "insights" := insights ]}
     end)
    (fun e =>
       log ERROR ("Facebook analytics failed: " +:+ str_of_exn e) ;;
       ret {[ "platform" := JStr "facebook";
              "post_id" := JStr post_id;
              "error" := JStr (str_of_exn e) ]}).

End FacebookAgent.

(** ** instagram_agent.py: optimize_content *)

Module InstagramAgent.

Definition generic_hashtags : list string :=
  ["#marketing"; "#business"; "#socialmedia"; "#content"].

Definition optimize_content (c : content) : content :=
  let optimized := c in
  let optimized :=
    if len (get_text optimized) >? 300
    then set_text (str_upto (get_text optimized) 297 +:+ "...") optimized
    else optimized in
  let hashtags := get_hashtags optimized in
  if llen hashtags >? 30
  then set_hashtags (list_upto hashtags 30) optimized
  else if llen hashtags <? 10
  then set_hashtags
         (hashtags ++ list_upto generic_hashtags (10 - llen hashtags))
         optimized
  else optimized.

(** [self.settings], as far as this agent reads it. *)
Record agent := Agent { FACEBOOK_ACCESS_TOKEN : option string }.

(** The caption [publish_content] composes. *)
Definition compose_caption (content : content) : string :=
  let caption := get_text content in
  let hashtags := get_hashtags content in
  if truthy_list hashtags
  then caption +:+ nl +:+ nl +:+ join " " (hash_tag <$> hashtags)
  else caption.

(** [publish_content] on typed content; [hash] is the interpreter's [hash]
    on [str].  [publish_content_dict] below takes any dictionary. *)
Definition publish_content (hash : string -> Z) (self : agent)
    (content : content) (client_id : string) : M (gmap string pyval) :=
  try_except
    (if negb (truthy_str (FACEBOOK_ACCESS_TOKEN self))
     then raise (Exception "Instagram access token not configured")
     else
       let caption := compose_caption content in
       ret {[ "status" := VStr "success";
              "platform" := VStr "instagram";
              "post_id" := VStr ("ig_" +:+ client_id +:+ "_"
                                 +:+ pretty (hash caption `mod` 10000));
              "client_id" := VStr client_id;
              "caption" := VStr caption ]})
    (fun e =>
       log ERROR ("Instagram publishing failed: " +:+ str_of_exn e) ;;
       ret {[ "status" := VStr "failed";
              "platform" := VStr "instagram";
              "error" := VStr (str_of_exn e);
              "client_id" := VStr client_id ]}).


(** [publish_content] on the dictionary as Python passes it.  The caption
    is whatever ["text"] holds; with hashtags that count as true it is
    extended in place, which raises on a caption that is neither a [str] nor
    a list, and the post id needs its hash.  [publish_content] above is the
    same function on typed content. *)
Definition publish_content_dict (hash : string -> Z) (hash_other : pyval -> Z)
    (self : agent) (content : gmap string pyval) (client_id : string)
    : M (gmap string pyval) :=
  try_except
    (if negb (truthy_str (FACEBOOK_ACCESS_TOKEN self))
     then raise (Exception "Instagram access token not configured")
     else
       let caption := default (VStr "") (content !! "text") in
       let hashtags := default (VList []) (content !! "hashtags") in
       let! caption :=
         if Dyn.truthy hashtags
         then
           let! tags := Dyn.iterate hashtags in
           Dyn.iadd_str caption (nl +:+ nl +:+ join " " (hash_tag <$> tags))
         else ret caption in
       let! h := Dyn.hash_value hash hash_other caption in
       ret {[ "status" := VStr "success";
              "platform" := VStr "instagram";
              "post_id" := VStr ("ig_" +:+ client_id +:+ "_"
                                 +:+ pretty (h `mod` 10000));
              "client_id" := VStr client_id;
              "caption" := caption ]})
    (fun e =>
       log ERROR ("Instagram publishing failed: " +:+ str_of_exn e) ;;
       ret {[ "status" := VStr "failed";
              "platform" := VStr "instagram";
              "error" := VStr (str_of_exn e);
              "client_id" := VStr client_id ]}).

Definition base_url : string := "https://graph.instagram.com".

(** [requests_get url params] is [requests.get(url, params=params)]. *)
Definition initialize
    (requests_get : string -> gmap string string -> M HttpResponse)
    (self : agent) : M unit :=
  try_except
    (if truthy_str (FACEBOOK_ACCESS_TOKEN self)
     then
       let! response :=
         requests_get (base_url +:+ "/me")
           {[ "access_token" := default "" (FACEBOOK_ACCESS_TOKEN self) ]} in
       if decide (status_code response = 200)
       then log INFO "Instagram Agent initialized successfully"
       else log ERROR ("Instagram Agent initialization failed: " +:+ body response)
     else log WARNING "Instagram access token not configured")
    (fun e =>
       log ERROR ("Instagram Agent initialization failed: " +:+ str_of_exn e)).

Definition shutdown : M unit :=
  log INFO "Instagram Agent shutdown complete".

Definition get_analytics (post_id : string) : M (gmap string json) :=
  try_except
    (ret {[ "platform" := JStr "instagram";
            "post_id" := JStr post_id;
            "insights" := JDict
              [("impressions", JInt 1250);
               ("reach", JInt 980);
               ("likes", JInt 45);
               ("comments", JInt 8);
               ("saves", JInt 12)] ]})
    (fun e =>
       log ERROR ("Instagram analytics failed: " +:+ str_of_exn e) ;;
       ret {[ "platform" := JStr "instagram";
              "post_id" := JStr post_id;
              "error" := JStr (str_of_exn e) ]}).

End InstagramAgent.

(** ** tiktok_agent.py: optimize_content *)

Module TikTokAgent.

Definition tiktok_hashtags : list string :=
  ["#fyp"; "#viral"; "#trending"; "#marketing"; "#business"].

Definition optimize_content (c : content) : content :=
  let optimized := c in
  let optimized :=
    if len (get_text optimized) >? 2200
    then set_text (str_upto (get_text optimized) 2197 +:+ "...") optimized
    else optimized in
  let hashtags := get_hashtags optimized in
  if llen hashtags >? 10
  then set_hashtags (list_upto hashtags 10) optimized
  else if llen hashtags <? 3
  then set_hashtags
         (hashtags ++ list_upto tiktok_hashtags (3 - llen hashtags))
         optimized
  else optimized.

(** The description [publish_content] composes. *)
Definition compose_description (content : content) : string :=
  let text := get_text content in
  let hashtags := get_hashtags content in
  let description := text in
  if truthy_list hashtags
  then description +:+ nl +:+ nl +:+ join " " (hash_tag <$> hashtags)
  else description.

(** [publish_content] on typed content; [hash] is the interpreter's [hash]
    on [str].  [publish_content_dict] below takes any dictionary. *)
Definition publish_content (hash : string -> Z) (content : content)
    (client_id : string) : M (gmap string pyval) :=
  try_except
    (let description := compose_description content in
     ret {[ "status" := VStr "success";
            "platform" := VStr "tiktok";
            "post_id" := VStr ("tiktok_" +:+ client_id +:+ "_"
                               +:+ pretty (hash description `mod` 10000));
            "client_id" := VStr client_id;
            "description" := VStr description;
            "note" := VStr "TikTok posting requires video content - this is a simulation" ]})
    (fun e =>
       log ERROR ("TikTok publishing failed: " +:+ str_of_exn e) ;;
       ret {[ "status" := VStr "failed";
              "platform" := VStr "tiktok";
              "error" := VStr (str_of_exn e);
              "client_id" := VStr client_id ]}).


(** [publish_content] on the dictionary as Python passes it.  The
    description starts as whatever ["text"] holds; with hashtags that count
    as true it is extended in place, which raises on a description that is
    neither a [str] nor a list, and the post id needs its hash.
    [publish_content] above is the same function on typed content. *)
Definition publish_content_dict (hash : string -> Z) (hash_other : pyval -> Z)
    (content : gmap string pyval) (client_id : string)
    : M (gmap string pyval) :=
  try_except
    (let text := default (VStr "") (content !! "text") in
     let hashtags := default (VList []) (content !! "hashtags") in
     let description := text in
     let! description :=
       if Dyn.truthy hashtags
       then
         let! tags := Dyn.iterate hashtags in
         Dyn.iadd_str description (nl +:+ nl +:+ join " " (hash_tag <$> tags))
       else ret description in
     let! h := Dyn.hash_value hash hash_other description in
     ret {[ "status" := VStr "success";
            "platform" := VStr "tiktok";
            "post_id" := VStr ("tiktok_" +:+ client_id +:+ "_"
                               +:+ pretty (h `mod` 10000));
            "client_id" := VStr client_id;
            "description" := description;
            "note" := VStr "TikTok posting requires video content - this is a simulation" ]})
    (fun e =>
       log ERROR ("TikTok publishing failed: " +:+ str_of_exn e) ;;
       ret {[ "status" := VStr "failed";
              "platform" := VStr "tiktok";
              "error" := VStr (str_of_exn e);
              "client_id" := VStr client_id ]}).

Definition base_url : string := "https://business-api.tiktok.com".

(** [self.settings], as far as this agent reads it. *)
Record agent := Agent { TIKTOK_ACCESS_TOKEN : option string }.

(** [requests_get url headers] is [requests.get(url, headers=headers)]. *)
Definition initialize
    (requests_get : string -> gmap string string -> M HttpResponse)
    (self : agent) : M unit :=
  try_except
    (if truthy_str (TIKTOK_ACCESS_TOKEN self)
     then
       let headers : gmap string string :=
         {[ "Authorization" :=
              "Bearer " +:+ default "" (TIKTOK_ACCESS_TOKEN self);
            "Content-Type" := "application/json" ]} in
       let! response :=
         requests_get (base_url +:+ "/open_api/v1.3/user/info/") headers in
       if decide (status_code response = 200)
       then log INFO "TikTok Agent initialized successfully"
       else log ERROR ("TikTok Agent initialization failed: " +:+ body response)
     else log WARNING "TikTok access token not configured")
    (fun e =>
       log ERROR ("TikTok Agent initialization failed: " +:+ str_of_exn e)).

Definition shutdown : M unit :=
  log INFO "TikTok Agent shutdown complete".

Definition get_analytics (post_id : string) : M (gmap string json) :=
  try_except
    (ret {[ "platform" := JStr "tiktok";
            "post_id" := JStr post_id;
            "insights" := JDict
              [("views", JInt 15420);
               ("likes", JInt 1230);
               ("comments", JInt 89);
               ("shares", JInt 156);
               ("profile_views", JInt 45)] ]})
    (fun e =>
       log ERROR ("TikTok analytics failed: " +:+ str_of_exn e) ;;
       ret {[ "platform" := JStr "tiktok";
              "post_id" := JStr post_id;
              "error" := JStr (str_of_exn e) ]}).

End TikTokAgent.

(** ** vector_store.py *)

Module VectorStoreManager.

Section Store.

(** Embedding vectors and the floating-point distances of the index are
    kept abstract; [one_minus d] is [1 - d]. *)
Context {vector real : Type}.
Variable one_minus : real -> real.
(** The interpreter's [hash] on [str], and [datetime.isoformat]. *)
Variable hash : string -> Z.
Variable isoformat : Z -> string.

(** What [collection.query] and [collection.get] reply. *)
Record QueryResult := {
  q_documents : list (list string);
  q_metadatas : list (list (gmap string pyval));
  q_distances : list (list real);
  q_ids : option (list (list string))
}.
Record GetResult := {
  g_documents : list string;
  g_metadatas : list (gmap string pyval)
}.

(** The ChromaDB collection and the sentence encoder, by the calls the
    manager makes on them. *)
Record Collection := {
  add : list vector -> list string -> list (gmap string pyval) ->
        list string -> M unit;
  query : list vector -> Z -> option (gmap string pyval) -> M QueryResult;
  get : list string -> M GetResult;
  delete : list string -> M unit
}.
Record Encoder := { encode : string -> M vector }.

(** [self]: all three are [None] until [initialize] has set them. *)
Record manager := Manager {
  client : option unit;
  collection : option Collection;
  encoder : option Encoder
}.

(** One entry of the list [search_similar_content] returns. *)
Record hit := Hit {
  h_content : string;
  h_metadata : gmap string pyval;
  similarity_score : real;
  h_id : option string
}.

Fixpoint for_each {A B} (l : list A) (body : A -> M B) : M (list B) :=
  match l with
  | [] => ret []
  | a :: l' =>
      let! b := body a in
      let! bs := for_each l' body in
      ret (b :: bs)
  end.

Definition store_content (self : manager) (content : string)
    (metadata : gmap string pyval) (content_id : option string) : M string :=
  try_except
    (match collection self, encoder self with
     | Some coll, Some enc =>
         let! embedding := encode enc content in
         let! content_id :=
           if truthy_str content_id
           then ret (default "" content_id)
           else
             let! now := datetime_now in
             ret (str_of_pyval (default (VStr "content") (metadata !! "type"))
                  +:+ "_" +:+ pretty (hash content `mod` 100000)
                  +:+ "_" +:+ pretty now) in
         let! now := datetime_now in
         let store_metadata :=
           <[ "content_length" := VInt (len content) ]>
             (<[ "stored_at" := VStr (isoformat now) ]> metadata) in
         add coll [embedding] [content] [store_metadata] [content_id] ;;
         log DEBUG ("Content stored with ID: " +:+ content_id) ;;
         ret content_id
     | _, _ => raise (Exception "Vector store not initialized")
     end)
    (fun e =>
       log ERROR ("Content storage failed: " +:+ str_of_exn e) ;;
       raise e).

Definition search_similar_content (self : manager) (query_text : string)
    (limit : Z) (filter_metadata : option (gmap string pyval)) : M (list hit) :=
  try_except
    (match collection self, encoder self with
     | Some coll, Some enc =>
         let! query_embedding := encode enc query_text in
         let where_clause :=
           if truthy_dict filter_metadata then filter_metadata else None in
         let! results := query coll [query_embedding] limit where_clause in
         let! first := getindex (q_documents results) 0 in
         for_each (seq 0 (length first)) (fun i =>
           let! docs := getindex (q_documents results) 0 in
           let! doc := getindex docs i in
           let! metas := getindex (q_metadatas results) 0 in
           let! meta := getindex metas i in
           let! dists := getindex (q_distances results) 0 in
           let! dist := getindex dists i in
           let! id :=
             match q_ids results with
             | Some ids =>
                 let! ids0 := getindex ids 0 in
                 let! id := getindex ids0 i in
                 ret (Some id)
             | None => ret None
             end in
           ret (Hit doc meta (one_minus dist) id))
     | _, _ => raise (Exception "Vector store not initialized")
     end)
    (fun e =>
       log ERROR ("Content search failed: " +:+ str_of_exn e) ;;
       ret []).

(** What [get_content_by_id] returns when the record exists. *)
Record found := Found {
  f_content : string;
  f_metadata : gmap string pyval;
  f_id : string
}.

Definition get_content_by_id (self : manager) (content_id : string)
    : M (option found) :=
  try_except
    (match collection self with
     | Some coll =>
         let! results := get coll [content_id] in
         if truthy_list (g_documents results)
         then
           let! doc := getindex (g_documents results) 0 in
           let! meta := getindex (g_metadatas results) 0 in
           ret (Some (Found doc meta content_id))
         else ret None
     | None => raise (Exception "Vector store not initialized")
     end)
    (fun e =>
       log ERROR ("Content retrieval failed: " +:+ str_of_exn e) ;;
       ret None).

Definition delete_content (self : manager) (content_id : string) : M bool :=
  try_except
    (match collection self with
     | Some coll =>
         delete coll [content_id] ;;
         log DEBUG ("Content deleted: " +:+ content_id) ;;
         ret true
     | None => raise (Exception "Vector store not initialized")
     end)
    (fun e =>
       log ERROR ("Content deletion failed: " +:+ str_of_exn e) ;;
       ret false).

End Store.

(** The manager as [__init__] leaves it. *)
Definition fresh {vector real : Type} : @manager vector real :=
  Manager None None None.

Section Campaigns.

Context {vector real : Type}.
Variable one_minus : real -> real.
Variable hash : string -> Z.
Variable isoformat : Z -> string.
(** [sum(values) / n] in floating point; it raises on a value that is not
    a number. *)
Variable mean : list pyval -> Z -> outcome real.
(** [json.dumps(d, indent=2)]. *)
Variable json_dumps : gmap string pyval -> string.

(** What [initialize] builds its three attributes from:
    [chromadb.PersistentClient(...)], [client.get_or_create_collection(...)]
    and [SentenceTransformer('all-MiniLM-L6-v2')]. *)
Record backend := {
  PersistentClient : M unit;
  get_or_create_collection : M (@Collection vector real);
  SentenceTransformer : M (@Encoder vector)
}.

Definition initialize (chromadb : backend) : Meth (@manager vector real) unit :=
  mtry_except
    (let!! c := call (PersistentClient chromadb) in
     assign (fun self => Manager (Some c) (collection self) (encoder self)) ;;;
     let!! coll := call (get_or_create_collection chromadb) in
     assign (fun self => Manager (client self) (Some coll) (encoder self)) ;;;
     let!! enc := call (SentenceTransformer chromadb) in
     assign (fun self => Manager (client self) (collection self) (Some enc)) ;;;
     call (log INFO "Vector store initialized successfully"))
    (fun e =>
       call (log ERROR ("Vector store initialization failed: " +:+ str_of_exn e)) ;;;
       mraise e).

Definition close : Meth (@manager vector real) unit :=
  assign (fun _ => Manager None None None) ;;;
  call (log INFO "Vector store closed").

(** The three dictionaries [get_analytics_insights] can return. *)
Inductive insights :=
| NoData (message client_id : string)
| Summary (client_id : string) (period_days total_posts_analyzed : Z)
          (average_engagement_rate : real) (insights_available : Z)
| InsightsError (error client_id : string).

Definition get_analytics_insights (self : @manager vector real)
    (client_id : string) (days : Z) : M insights :=
  try_except
    (let! analytics_content :=
       search_similar_content one_minus self
         ("analytics client " +:+ client_id) 100
         (Some {[ "type" := VStr "analytics"; "client_id" := VStr client_id ]}) in
     if negb (truthy_list analytics_content)
     then ret (NoData "No analytics data found" client_id)
     else
       let total_posts :=
         llen (filter (fun c => h_metadata c !! "type" = Some (VStr "analytics"))
                      analytics_content) in
       let rated :=
         filter (fun c => is_Some (h_metadata c !! "engagement_rate"))
                analytics_content in
       let! avg_engagement :=
         pure_call
           (mean ((fun c => default (VInt 0) (h_metadata c !! "engagement_rate"))
                    <$> rated)
                 (Z.max 1 (llen rated))) in
       ret (Summary client_id days total_posts avg_engagement
                    (llen analytics_content)))
    (fun e =>
       log ERROR ("Analytics insights failed: " +:+ str_of_exn e) ;;
       ret (InsightsError (str_of_exn e) client_id)).

(** [campaign_data], restricted to the keys [store_campaign_memory] reads;
    [None] is an absent key. *)
Record campaign_data := {
  objective : option string;
  target_platforms : option (list string);
  status : option string;
  generated_content : option (gmap string pyval);
  published_content : option (gmap string pyval);
  analytics_data : option (gmap string pyval)
}.

(** A line break inside the indented template of the memory text. *)
Definition br : string := nl +:+ "            ".

Definition memory_content (client_id : string) (d : campaign_data) : string :=
  br +:+ "Campaign Memory for Client " +:+ client_id +:+ ":"
  +:+ br
  +:+ br +:+ "Objective: " +:+ default "N/A" (objective d)
  +:+ br +:+ "Platforms: " +:+ join ", " (default [] (target_platforms d))
  +:+ br +:+ "Status: " +:+ default "N/A" (status d)
  +:+ br
  +:+ br +:+ "Generated Content Summary:"
  +:+ br +:+ json_dumps (default ∅ (generated_content d))
  +:+ br
  +:+ br +:+ "Published Results:"
  +:+ br +:+ json_dumps (default ∅ (published_content d))
  +:+ br
  +:+ br +:+ "Analytics Data:"
  +:+ br +:+ json_dumps (default ∅ (analytics_data d))
  +:+ br.

Definition store_campaign_memory (self : @manager vector real)
    (campaign_id client_id : string) (d : campaign_data) : M string :=
  try_except
    (let memory_content := memory_content client_id d in
     let! now := datetime_now in
     let metadata : gmap string pyval :=
       {[ "type" := VStr "campaign_memory";
          "campaign_id" := VStr campaign_id;
          "client_id" := VStr client_id;
          "status" := VStr (default "unknown" (status d));
          "platforms" := VList (default [] (target_platforms d));
          "timestamp" := VStr (isoformat now) ]} in
     let! memory_id :=
       store_content hash isoformat self memory_content metadata
         (Some ("campaign_" +:+ campaign_id)) in
     ret memory_id)
    (fun e =>
       log ERROR ("Campaign memory storage failed: " +:+ str_of_exn e) ;;
       raise e).

(** The hits that a reply with four parallel lists stands for. *)
Fixpoint hits_of (docs : list string) (metas : list (gmap string pyval))
    (dists : list real) (ids : list string) : list (@hit real) :=
  match docs, metas, dists, ids with
  | doc :: docs', meta :: metas', dist :: dists', id :: ids' =>
      Hit doc meta (one_minus dist) (Some id) :: hits_of docs' metas' dists' ids'
  | _, _, _, _ => []
  end.

End Campaigns.

End VectorStoreManager.

(** ** executive_agent.py *)

Module ExecutiveAgent.

(** [ExecutiveState], the typed dictionary the workflow threads through
    its nodes. *)
Record ExecutiveState := State {
  client_id : string;
  campaign_id : option string;
  objective : string;
  content_brief : string;
  target_platforms : list string;
  generated_content : gmap string pyval;
  published_content : gmap string pyval;
  analytics_data : gmap string pyval;
  ghl_data : gmap string pyval;
  error_messages : list string;
  status : string;
  created_at : Z;
  updated_at : Z
}.

(** [state["status"] = s] and [state["updated_at"] = t]. *)
Definition set_status (s : string) (st : ExecutiveState) : ExecutiveState :=
  State (client_id st) (campaign_id st) (objective st) (content_brief st)
        (target_platforms st) (generated_content st) (published_content st)
        (analytics_data st) (ghl_data st) (error_messages st)
        s (created_at st) (updated_at st).
Definition set_updated_at (t : Z) (st : ExecutiveState) : ExecutiveState :=
  State (client_id st) (campaign_id st) (objective st) (content_brief st)
        (target_platforms st) (generated_content st) (published_content st)
        (analytics_data st) (ghl_data st) (error_messages st)
        (status st) (created_at st) t.

(** *** The workflow graph

    [StateGraph] comes from the LangGraph library: named nodes, one
    outgoing edge per node, an entry point; running it applies the node
    functions along the edges until [END], and gives up with an error
    after [recursion_limit] steps. *)
Record StateGraph := Graph {
  nodes : gmap string (ExecutiveState -> M ExecutiveState);
  edges : gmap string string;
  entry_point : option string
}.

Definition END : string := "__end__".
Definition recursion_limit : nat := 25.

Definition new_graph : StateGraph := Graph ∅ ∅ None.
Definition add_node (name : string) (action : ExecutiveState -> M ExecutiveState)
    (g : StateGraph) : StateGraph :=
  Graph (<[ name := action ]> (nodes g)) (edges g) (entry_point g).
Definition add_edge (src dst : string) (g : StateGraph) : StateGraph :=
  Graph (nodes g) (<[ src := dst ]> (edges g)) (entry_point g).
Definition set_entry_point (name : string) (g : StateGraph) : StateGraph :=
  Graph (nodes g) (edges g) (Some name).

(** A run is about to enter a node, has reached [END], or has failed. *)
Inductive config :=
| Running (node : string) (state : ExecutiveState) (w : world)
| Finished (state : ExecutiveState) (w : world)
| Failed (e : exn) (w : world).

Definition step (g : StateGraph) (node : string) (state : ExecutiveState)
    (w : world) : config :=
  match nodes g !! node with
  | None => Failed (Exception ("unknown node: " +:+ node)) w
  | Some action =>
      match action state w with
      | (Raise e, w') => Failed e w'
      | (Return state', w') =>
          match edges g !! node with
          | Some next =>
              if decide (next = END) then Finished state' w'
              else Running next state' w'
          | None => Finished state' w'
          end
      end
  end.

Fixpoint run (g : StateGraph) (limit : nat) (c : config) : config :=
  match c, limit with
  | Running node state w, S limit' => run g limit' (step g node state w)
  | Running _ _ w, O => Failed (GraphRecursionError "Recursion limit reached") w
  | _, _ => c
  end.

(** Every configuration a run goes through, the first one included. *)
Fixpoint trace (g : StateGraph) (limit : nat) (c : config) : list config :=
  c :: match c, limit with
       | Running node state w, S limit' => trace g limit' (step g node state w)
       | _, _ => []
       end.

(** [workflow.ainvoke(initial_state)]. *)
Definition ainvoke (g : StateGraph) (initial_state : ExecutiveState)
    : M ExecutiveState :=
  fun w =>
    match entry_point g with
    | None => (Raise (Exception "graph has no entry point"), w)
    | Some entry =>
        match run g recursion_limit (Running entry initial_state w) with
        | Finished state w' => (Return state, w')
        | Failed e w' => (Raise e, w')
        | Running _ _ w' =>
            (Raise (GraphRecursionError "Recursion limit reached"), w')
        end
    end.

(** *** The nodes *)

Definition _analyze_brief (state : ExecutiveState) : M ExecutiveState :=
  let state := set_status "brief_analyzed" state in
  let! now := datetime_now in
  ret (set_updated_at now state).

Definition _generate_content (state : ExecutiveState) : M ExecutiveState :=
  let state := set_status "content_generated" state in
  let! now := datetime_now in
  ret (set_updated_at now state).

Definition _finalize (state : ExecutiveState) : M ExecutiveState :=
  let state := set_status "completed" state in
  let! now := datetime_now in
  ret (set_updated_at now state).

Definition _build_workflow : StateGraph :=
  let workflow := new_graph in
  let workflow := add_node "analyze_brief" _analyze_brief workflow in
  let workflow := add_node "generate_content" _generate_content workflow in
  let workflow := add_node "finalize" _finalize workflow in
  let workflow := set_entry_point "analyze_brief" workflow in
  let workflow := add_edge "analyze_brief" "generate_content" workflow in
  let workflow := add_edge "generate_content" "finalize" workflow in
  let workflow := add_edge "finalize" END workflow in
  workflow.

(** *** execute_campaign *)

(** The initial state [execute_campaign] builds from its arguments and
    two clock readings. *)
Definition initial_state (client_id objective content_brief : string)
    (target_platforms : list string) (campaign_id : option string)
    (created updated : Z) : ExecutiveState :=
  State client_id campaign_id objective content_brief target_platforms
        ∅ ∅ ∅ ∅ [] "started" created updated.

Definition execute_campaign (client_id objective content_brief : string)
    (target_platforms : list string) (campaign_id : option string)
    : M ExecutiveState :=
  let! created := datetime_now in
  let! updated := datetime_now in
  let initial_state :=
    initial_state client_id objective content_brief target_platforms
                  campaign_id created updated in
  try_except
    (let! result := ainvoke _build_workflow initial_state in
     log INFO ("Campaign executed successfully for client " +:+ client_id) ;;
     ret result)
    (fun e =>
       log ERROR ("Campaign execution failed for client " +:+ client_id
                  +:+ ": " +:+ str_of_exn e) ;;
       raise e).

(** The configurations one call of [execute_campaign] goes through, from
    the initial state on. *)
Definition campaign_trace (client_id objective content_brief : string)
    (target_platforms : list string) (campaign_id : option string)
    (w : world) : list config :=
  let created := wall w (reads w) in
  let updated := wall w (S (reads w)) in
  trace _build_workflow recursion_limit
    (Running "analyze_brief"
       (initial_state client_id objective content_brief target_platforms
                      campaign_id created updated)
       (World (logged w) (wall w) (S (S (reads w))))).

(** The campaign state a configuration carries, and the statuses along a
    trace. *)
Definition config_state (c : config) : option ExecutiveState :=
  match c with
  | Running _ state _ => Some state
  | Finished state _ => Some state
  | Failed _ _ => None
  end.

Definition statuses (tr : list config) : list string :=
  omap (fun c => status <$> config_state c) tr.

Definition stamps (tr : list config) : list Z :=
  omap (fun c => updated_at <$> config_state c) tr.

(** The position of a status in the order the workflow assigns them. *)
Definition status_rank (s : string) : option nat :=
  if decide (s = "started") then Some 0%nat
  else if decide (s = "brief_analyzed") then Some 1%nat
  else if decide (s = "content_generated") then Some 2%nat
  else if decide (s = "completed") then Some 3%nat
  else None.

End ExecutiveAgent.

(** ** mcp/connectors.py *)

Module MCP.

(** The four connector classes. *)
Inductive kind := FacebookMCP | InstagramMCP | TwitterMCP | GHLMCP.

(** The platform name each class writes into its log lines. *)
Definition label (k : kind) : string :=
  match k with
  | FacebookMCP => "Facebook"
  | InstagramMCP => "Instagram"
  | TwitterMCP => "Twitter"
  | GHLMCP => "GHL"
  end.

(** A connector object: its class and the attributes [__init__] sets. *)
Record connector := Connector {
  cls : kind;
  name : string;
  config : gmap string pyval;
  is_connected : bool
}.

Definition set_connected (b : bool) (c : connector) : connector :=
  Connector (cls c) (name c) (config c) b.

(** Connectors are objects, shared between the manager and whoever created
    them: [objects] gives the object behind each reference, [connectors] is
    the manager's dictionary from names to references, in insertion order. *)
Record state := State {
  objects : nat -> connector;
  connectors : list (string * nat)
}.

Definition update (r : nat) (f : connector -> connector) (objs : nat -> connector)
    : nat -> connector :=
  fun r' => if decide (r' = r) then f (objs r') else objs r'.

(** [d[key] = value] on an insertion-ordered dictionary. *)
Fixpoint dict_set {V} (key : string) (value : V) (d : list (string * V))
    : list (string * V) :=
  match d with
  | [] => [(key, value)]
  | (k, v) :: d' =>
      if decide (k = key) then (key, value) :: d'
      else (k, v) :: dict_set key value d'
  end.

(** [for x in l: body(x)]. *)
Fixpoint mfor {S A} (l : list A) (body : A -> Meth S unit) : Meth S unit :=
  match l with
  | [] => mret ()
  | a :: l' => body a ;;; mfor l' body
  end.

Definition connect (r : nat) : Meth state bool :=
  mtry_except
    (assign (fun s => State (update r (set_connected true) (objects s))
                            (connectors s)) ;;;
     let!! s := inspect in
     call (log INFO (label (cls (objects s r)) +:+ " MCP connector connected")) ;;;
     mret true)
    (fun e =>
       let!! s := inspect in
       call (log ERROR (label (cls (objects s r)) +:+ " MCP connection failed: "
                        +:+ str_of_exn e)) ;;;
       mret false).

Definition disconnect (r : nat) : Meth state unit :=
  assign (fun s => State (update r (set_connected false) (objects s))
                         (connectors s)) ;;;
  let!! s := inspect in
  call (log INFO (label (cls (objects s r)) +:+ " MCP connector disconnected")).

Definition parameter (type : string) (required : bool) : json :=
  JDict [("type", JStr type); ("required", JBool required)].

Definition tool (name description : string) (parameters : list (string * json))
    : json :=
  JDict [("name", JStr name); ("description", JStr description);
         ("parameters", JDict parameters)].

Definition get_tools (k : kind) : list json :=
  match k with
  | FacebookMCP =>
      [tool "facebook_post" "Create a post on Facebook"
         [("message", parameter "string" true);
          ("image_url", parameter "string" false)];
       tool "facebook_analytics" "Get Facebook post analytics"
         [("post_id", parameter "string" true)]]
  | InstagramMCP =>
      [tool "instagram_post" "Create a post on Instagram"
         [("caption", parameter "string" true);
          ("image_url", parameter "string" true)];
       tool "instagram_story" "Create an Instagram story"
         [("image_url", parameter "string" true);
          ("text", parameter "string" false)]]
  | TwitterMCP =>
      [tool "twitter_tweet" "Create a tweet on Twitter/X"
         [("text", parameter "string" true);
          ("reply_to", parameter "string" false)];
       tool "twitter_thread" "Create a Twitter thread"
         [("tweets", JDict [("type", JStr "array");
                            ("items", JDict [("type", JStr "string")]);
                            ("required", JBool true)])]]
  | GHLMCP =>
      [tool "ghl_create_contact" "Create a contact in GoHighLevel"
         [("first_name", parameter "string" true);
          ("email", parameter "string" true);
          ("phone", parameter "string" false)];
       tool "ghl_create_opportunity" "Create an opportunity in GoHighLevel"
         [("contact_id", parameter "string" true);
          ("title", parameter "string" true);
          ("value", parameter "number" false)]]
  end.

(** *** MCPManager *)

Definition register_connector (r : nat) : Meth state bool :=
  mtry_except
    (let!! success := connect r in
     let!! s := inspect in
     let connector := objects s r in
     if success
     then
       assign (fun s => State (objects s)
                              (dict_set (name connector) r (connectors s))) ;;;
       call (log INFO ("MCP connector registered: " +:+ name connector)) ;;;
       mret true
     else
       call (log ERROR ("Failed to register MCP connector: " +:+ name connector)) ;;;
       mret false)
    (fun e =>
       call (log ERROR ("MCP connector registration failed: " +:+ str_of_exn e)) ;;;
       mret false).

(** One round of the loop in [get_all_tools], and the dictionary the loop
    builds over the whole registry. *)
Definition add_tools (s : state) (all_tools : list (string * list json))
    (item : string * nat) : list (string * list json) :=
  let '(name, r) := item in
  let connector := objects s r in
  if is_connected connector
  then dict_set name (get_tools (cls connector)) all_tools
  else all_tools.

Definition listing (s : state) : list (string * list json) :=
  fold_left (add_tools s) (connectors s) [].

Definition get_all_tools : Meth state (list (string * list json)) :=
  let!! s := inspect in
  mret (listing s).

Definition shutdown : Meth state unit :=
  let!! s := inspect in
  mfor (snd <$> connectors s) disconnect ;;;
  assign (fun s => State (objects s) []) ;;;
  call (log INFO "All MCP connectors shutdown").

End MCP.

(** ** The adapters side by side *)

Inductive platform := Twitter | Facebook | Instagram | TikTok.

Global Instance platform_eq_dec : EqDecision platform.
Proof. solve_decision. Defined.

Definition optimize (p : platform) : content -> content :=
  match p with
  | Twitter => TwitterAgent.optimize_content
  | Facebook => FacebookAgent.optimize_content
  | Instagram => InstagramAgent.optimize_content
  | TikTok => TikTokAgent.optimize_content
  end.

(** The constants each [optimize_content] tests against, as one table. *)
Definition maxTextLength (p : platform) : Z :=
  match p with
  | Twitter => 280 | Facebook => 500 | Instagram => 300 | TikTok => 2200
  end.

Definition maxHashtags (p : platform) : Z :=
  match p with
  | Twitter => 5 | Facebook => 5 | Instagram => 30 | TikTok => 10
  end.

Definition minHashtags (p : platform) : Z :=
  match p with
  | Twitter => 0 | Facebook => 0 | Instagram => 10 | TikTok => 3
  end.

Definition defaultHashtags (p : platform) : list string :=
  match p with
  | Twitter => [] | Facebook => []
  | Instagram => InstagramAgent.generic_hashtags
  | TikTok => TikTokAgent.tiktok_hashtags
  end.

(** The number of characters [optimize_content] leaves to the text: the
    fixed limit, except on Twitter, where the hashtags are paid for first. *)
Definition text_budget (p : platform) (c : content) : Z :=
  match p with
  | Twitter => TwitterAgent.available_chars c
  | _ => maxTextLength p
  end.

(** Content that already satisfies a platform's constraints. *)
Definition within_constraints (p : platform) (c : content) : Prop :=
  len (get_text c) <= maxTextLength p /\
  minHashtags p <= llen (get_hashtags c) <= maxHashtags p.

(** [s.endswith(suffix)]. *)
Definition ends_with (suffix s : string) : Prop :=
  exists front, s = front +:+ suffix.

(** How often [t] occurs in [l]: [l.count(t)]. *)
Definition occurrences (t : string) (l : list string) : nat :=
  length (filter (fun x => x = t) l).


(** The shape of what [publish_content] hands back: a dictionary, not an
    exception, that names the platform and the client and is tagged success
    or failed. *)
Definition publish_result (name client_id : string)
    (r : outcome (gmap string pyval)) : Prop :=
  exists d, r = Return d /\
    d !! "platform" = Some (VStr name) /\
    d !! "client_id" = Some (VStr client_id) /\
    (d !! "status" = Some (VStr "success") \/
     d !! "status" = Some (VStr "failed") /\ is_Some (d !! "error")).

(** The shape of what [get_analytics] hands back: it names the platform and
    the post, and carries either insights or an error, not both. *)
Definition analytics_result (name post_id : string)
    (r : outcome (gmap string json)) (insights : json -> Prop) : Prop :=
  exists d, r = Return d /\
    d !! "platform" = Some (JStr name) /\
    d !! "post_id" = Some (JStr post_id) /\
    ((exists i, d !! "insights" = Some i /\ insights i /\ d !! "error" = None) \/
     (d !! "insights" = None /\ is_Some (d !! "error"))).

(** The five counters the Twitter agent reports. *)
Definition twitter_counters (i : json) : Prop :=
  exists a b c d e,
    i = JDict [("retweets", JInt a); ("likes", JInt b); ("replies", JInt c);
               ("quotes", JInt d); ("impressions", JInt e)].

(** ** Concrete inputs *)

(** A world with an empty log, whose clock advances by one per reading. *)
Definition w0 : world := World [] (fun n => 1700000000 + Z.of_nat n) 0.

(** A Graph API whose reply to [put_object] carries no ["id"]. *)
Definition silent_graph : FacebookAgent.GraphAPI :=
  {| FacebookAgent.put_object := fun _ _ _ => ret ∅ |}.

(** A Twitter client whose reply carries data without an ["id"], one whose
    reply carries no data, and one whose call raises. *)
Definition idless_client : TwitterAgent.Client :=
  {| TwitterAgent.create_tweet := fun text =>
       ret {| TwitterAgent.data := Some {[ "text" := VStr text ]} |} |}.
Definition dataless_client : TwitterAgent.Client :=
  {| TwitterAgent.create_tweet := fun _ => ret {| TwitterAgent.data := None |} |}.
Definition failing_client : TwitterAgent.Client :=
  {| TwitterAgent.create_tweet := fun _ => raise (Exception "403 Forbidden") |}.

(** A string hash for examples. *)
Definition length_hash (s : string) : Z := 31 * len s + 7.

(** A text of 281 characters without hashtags. *)
Definition long_post : content :=
  Content (Some (str_repeat "a" 281)) (Some []) None.

(** A short text without hashtags, and with one hashtag from the pools. *)
Definition bare_post : content :=
  Content (Some "Spring sale") (Some []) None.
Definition marketing_post : content :=
  Content (Some "Spring sale") (Some ["#marketing"]) None.

(** A short text under five hashtags of 55 characters each. *)
Definition wordy_tags : list string :=
  [str_repeat "a" 55; str_repeat "b" 55; str_repeat "c" 55;
   str_repeat "d" 55; str_repeat "e" 55].
Definition wordy_post : content :=
  Content (Some "Hello world") (Some wordy_tags) None.

(** A text of 300 characters under one hashtag of 275 characters. *)
Definition oversized_tag_post : content :=
  Content (Some (str_repeat "x" 300)) (Some [str_repeat "t" 275]) None.

(** A text of 300 characters under seven hashtags. *)
Definition busy_post : content :=
  Content (Some (str_repeat "x" 300))
          (Some ["a"; "b"; "c"; "d"; "e"; "f"; "g"]) None.

(** Six hashtags, four short of Instagram's minimum. *)
Definition six_tag_post : content :=
  Content (Some "Spring sale")
          (Some ["sale"; "spring"; "deal"; "shop"; "new"; "local"]) None.

(** A Twitter client that accepts every tweet under the id ["1850"]. *)
Definition accepting_client : TwitterAgent.Client :=
  {| TwitterAgent.create_tweet := fun text =>
       ret {| TwitterAgent.data :=
                Some {[ "id" := VStr "1850"; "text" := VStr text ]} |} |}.

(** The same text as [marketing_post] under other hashtags. *)
Definition retagged_post : content :=
  Content (Some "Spring sale") (Some ["sale"; "spring"]) None.

(** A Twitter API whose constructor returns [accepting_client], whose
    credential check finds no user, and whose tweets carry only a like
    count. *)
Definition unverified_api : TwitterAgent.api :=
  {| TwitterAgent.new_client := ret accepting_client;
     TwitterAgent.get_me := fun _ => ret {| TwitterAgent.data := None |};
     TwitterAgent.get_tweet := fun _ _ _ =>
       ret {| TwitterAgent.tweet_data :=
                Some {| TwitterAgent.public_metrics :=
                          Some {[ "like_count" := 7 ]} |} |} |}.

(** An index that accepts every write, finds two records for every query
    and one for every id; an encoder that embeds a text as its length. *)
Definition open_collection : @VectorStoreManager.Collection (list Z) Z :=
  {| VectorStoreManager.add := fun _ _ _ _ => ret ();
     VectorStoreManager.query := fun _ _ _ =>
       ret {| VectorStoreManager.q_documents := [["spring"; "summer"]];
              VectorStoreManager.q_metadatas :=
                [[ {[ "type" := VStr "analytics" ]}; ∅ ]];
              VectorStoreManager.q_distances := [[0; 1]];
              VectorStoreManager.q_ids := Some [["a1"; "a2"]] |};
     VectorStoreManager.get := fun ids =>
       ret {| VectorStoreManager.g_documents := ["spring"];
              VectorStoreManager.g_metadatas := [∅] |};
     VectorStoreManager.delete := fun _ => ret () |}.
Definition length_encoder : @VectorStoreManager.Encoder (list Z) :=
  {| VectorStoreManager.encode := fun s => ret [len s] |}.
Definition open_store : @VectorStoreManager.manager (list Z) Z :=
  VectorStoreManager.Manager (Some ()) (Some open_collection)
                             (Some length_encoder).

(** The same index behind a reply whose metadata list is one short. *)
Definition ragged_collection : @VectorStoreManager.Collection (list Z) Z :=
  {| VectorStoreManager.add := fun _ _ _ _ => ret ();
     VectorStoreManager.query := fun _ _ _ =>
       ret {| VectorStoreManager.q_documents := [["spring"; "summer"]];
              VectorStoreManager.q_metadatas := [[ ∅ ]];
              VectorStoreManager.q_distances := [[0; 1]];
              VectorStoreManager.q_ids := Some [["a1"; "a2"]] |};
     VectorStoreManager.get := fun ids =>
       ret {| VectorStoreManager.g_documents := [];
              VectorStoreManager.g_metadatas := [] |};
     VectorStoreManager.delete := fun _ => raise (Exception "index is read-only") |}.
Definition ragged_store : @VectorStoreManager.manager (list Z) Z :=
  VectorStoreManager.Manager (Some ()) (Some ragged_collection)
                             (Some length_encoder).

Definition working_backend : @VectorStoreManager.backend (list Z) Z :=
  {| VectorStoreManager.PersistentClient := ret ();
     VectorStoreManager.get_or_create_collection := ret open_collection;
     VectorStoreManager.SentenceTransformer := ret length_encoder |}.

(** The campaign that comes back for a spring sale on Twitter in [w0]. *)
Definition spring_campaign : ExecutiveAgent.ExecutiveState :=
  ExecutiveAgent.State "client_001" None "awareness" "Spring sale" ["twitter"]
    ∅ ∅ ∅ ∅ [] "completed" 1700000000 1700000004.

(** Two connector objects under the same name, neither connected yet, and
    a manager that has registered nothing. *)
Definition social_objects (r : nat) : MCP.connector :=
  if decide (r = 0%nat) then MCP.Connector MCP.FacebookMCP "social" ∅ false
  else MCP.Connector MCP.TwitterMCP "social" ∅ false.
Definition empty_registry : MCP.state := MCP.State social_objects [].

(** A dictionary whose text is [None], under one hashtag. *)
Definition textless_post : gmap string pyval :=
  {[ "text" := VNone; "hashtags" := VList ["sale"] ]}.

(** * Properties *)

(** ** Strings, slices and lengths *)

Section Slices.

Lemma length_str_app (a b : string) :
  String.length (a +:+ b) = (String.length a + String.length b)%nat.
Proof. induction a as [|ch a IH]; simpl; [done | by rewrite IH]. Qed.

Lemma length_str_take (n : nat) (s : string) :
  String.length (str_take n s) = (n `min` String.length s)%nat.
Proof.
  revert s; induction n as [|n IH]; intros [|ch s]; simpl; try done.
  by rewrite IH.
Qed.

Lemma len_app (a b : string) : len (a +:+ b) = len a + len b.
Proof. unfold len. rewrite length_str_app. lia. Qed.

Lemma len_nonneg (s : string) : 0 <= len s.
Proof. unfold len. lia. Qed.

Lemma gtb_true (a b : Z) : b < a -> (a >? b) = true.
Proof. intros. by apply Z.gtb_lt. Qed.

Lemma gtb_false (a b : Z) : a <= b -> (a >? b) = false.
Proof. intros. rewrite Z.gtb_ltb. by apply Z.ltb_ge. Qed.

Lemma slice_stop_nonneg (k : Z) (n : nat) :
  0 <= k -> slice_stop k n = Z.to_nat k.
Proof. intros Hk. unfold slice_stop. by rewrite (proj2 (Z.ltb_ge k 0)). Qed.

(** Cutting to [k - 3] characters and adding the marker gives exactly [k]
    characters, as long as the text is longer than [k] and [k] leaves room
    for the marker. *)
Lemma len_cut_ellipsis (s : string) (k : Z) :
  3 <= k -> k < len s -> len (str_upto s (k - 3) +:+ "...") = k.
Proof.
  intros Hk Hlen. rewrite len_app. unfold str_upto, len in *.
  rewrite slice_stop_nonneg by lia. rewrite length_str_take. simpl. lia.
Qed.

Lemma list_upto_all {A} (l : list A) (k : Z) :
  llen l <= k -> list_upto l k = l.
Proof.
  intros Hk. unfold list_upto, llen in *.
  rewrite slice_stop_nonneg by lia. apply take_ge. lia.
Qed.

Lemma llen_list_upto {A} (l : list A) (k : Z) :
  0 <= k -> llen (list_upto l k) = Z.min k (llen l).
Proof.
  intros Hk. unfold list_upto, llen.
  rewrite slice_stop_nonneg by lia. rewrite length_take. lia.
Qed.

Lemma llen_app {A} (l1 l2 : list A) : llen (l1 ++ l2) = llen l1 + llen l2.
Proof. unfold llen. rewrite length_app. lia. Qed.

End Slices.

(** ** What optimize does to the text and to the hashtags *)

Section Optimize.

Implicit Types (p : platform) (c : content).

Lemma get_text_set_text s c : get_text (set_text s c) = s.
Proof. reflexivity. Qed.
Lemma get_text_set_hashtags l c : get_text (set_hashtags l c) = get_text c.
Proof. reflexivity. Qed.
Lemma get_hashtags_set_text s c : get_hashtags (set_text s c) = get_hashtags c.
Proof. reflexivity. Qed.
Lemma get_hashtags_set_hashtags l c : get_hashtags (set_hashtags l c) = l.
Proof. reflexivity. Qed.

(** Open the body of whichever agent [optimize p] stands for, and decide
    each of its tests. *)
Ltac open_optimize :=
  unfold optimize, text_budget, maxTextLength, maxHashtags, minHashtags,
         defaultHashtags,
         TwitterAgent.optimize_content, FacebookAgent.optimize_content,
         InstagramAgent.optimize_content, TikTokAgent.optimize_content;
  cbv zeta;
  rewrite ?get_hashtags_set_text.
Ltac decide_tests :=
  try match goal with
      | |- context [len (get_text ?c) >? ?b] =>
          destruct (Z.gtb_spec (len (get_text c)) b)
      end;
  repeat (rewrite ?get_hashtags_set_text, ?get_hashtags_set_hashtags,
                  ?get_text_set_hashtags, ?get_text_set_text;
          match goal with
          | |- context [?a >? ?b] => destruct (Z.gtb_spec a b)
          | |- context [?a <? ?b] => destruct (Z.ltb_spec a b)
          end);
  rewrite ?get_hashtags_set_text, ?get_hashtags_set_hashtags,
          ?get_text_set_hashtags, ?get_text_set_text.

(** The text is cut, with the marker, exactly when it is longer than the
    platform's budget. *)
Lemma optimize_text p c :
  get_text (optimize p c) =
    if len (get_text c) >? text_budget p c
    then str_upto (get_text c) (text_budget p c - 3) +:+ "..."
    else get_text c.
Proof. destruct p; open_optimize; decide_tests; reflexivity. Qed.

(** The hashtags are cut to the maximum, or topped up from the pool. *)
Lemma optimize_hashtags p c :
  get_hashtags (optimize p c) =
    let tags := get_hashtags c in
    if llen tags >? maxHashtags p then list_upto tags (maxHashtags p)
    else if llen tags <? minHashtags p
    then tags ++ list_upto (defaultHashtags p) (minHashtags p - llen tags)
    else tags.
Proof.
  assert (Hnn : 0 <= llen (get_hashtags c)) by (unfold llen; lia).
  destruct p; open_optimize; decide_tests; try reflexivity; try lia.
  all: first [apply list_upto_all | symmetry; apply list_upto_all]; lia.
Qed.

Lemma optimize_image_url p c : image_url (optimize p c) = image_url c.
Proof. destruct p; open_optimize; decide_tests; reflexivity. Qed.

Lemma available_chars_le c : TwitterAgent.available_chars c <= 278.
Proof.
  unfold TwitterAgent.available_chars.
  pose proof (len_nonneg (TwitterAgent.hashtag_text c)). lia.
Qed.

(** *** Truncation *)

(** C1, as the code has it.  For a text longer than the platform's limit,
    the Facebook, Instagram and TikTok agents return a text of exactly
    500, 300 and 2200 characters that ends with the marker ["..."].  The
    Twitter agent first reserves room for the hashtags: its text ends with
    the marker and has exactly [280 - len(hashtag_text) - 2] characters (at
    most 278), whenever that budget is at least the 3 characters of the
    marker. *)
Theorem truncation_length p c :
  maxTextLength p < len (get_text c) ->
  (p <> Twitter ->
     len (get_text (optimize p c)) = maxTextLength p /\
     ends_with "..." (get_text (optimize p c))) /\
  (p = Twitter -> 3 <= TwitterAgent.available_chars c ->
     len (get_text (optimize p c)) = TwitterAgent.available_chars c /\
     len (get_text (optimize p c)) <= 278 /\
     ends_with "..." (get_text (optimize p c))).
Proof.
  intros Hlong. pose proof (available_chars_le c) as Hav.
  rewrite optimize_text.
  rewrite gtb_true by (destruct p; simpl in *; lia). split.
  - intros Hp. split; [| by eexists].
    replace (text_budget p c) with (maxTextLength p) by (by destruct p).
    apply len_cut_ellipsis; [destruct p; simpl; lia | done].
  - intros -> Hroom. simpl in *.
    assert (len (str_upto (get_text c) (TwitterAgent.available_chars c - 3)
                 +:+ "...") = TwitterAgent.available_chars c) as Hlen
      by (apply len_cut_ellipsis; lia).
    rewrite Hlen. repeat split; [done | by eexists].
Qed.

(** C1 as stated fails on Twitter: a text of 281 characters and no
    hashtags comes back with 278 characters, not 280. *)
Lemma truncation_length_twitter_278 :
  maxTextLength Twitter < len (get_text long_post) /\
  len (get_text (optimize Twitter long_post)) = 278 /\
  len (get_text (optimize Twitter long_post)) <> maxTextLength Twitter.
Proof. vm_compute. repeat split; discriminate. Qed.

Lemma truncation_length_witness :
  maxTextLength Twitter < len (get_text busy_post) /\
  3 <= TwitterAgent.available_chars busy_post /\
  len (get_text (optimize Twitter busy_post)) = 264 /\
  len (get_text (optimize Facebook (Content (Some (str_repeat "x" 501)) None None)))
    = 500.
Proof.
  assert (Hlong : maxTextLength Twitter < len (get_text busy_post))
    by reflexivity.
  assert (Hroom : 3 <= TwitterAgent.available_chars busy_post)
    by discriminate.
  destruct (truncation_length Twitter busy_post Hlong) as [_ Htw].
  destruct (Htw eq_refl Hroom) as (Hlen & _ & _).
  destruct (truncation_length Facebook
              (Content (Some (str_repeat "x" 501)) None None) eq_refl)
    as [Hfb _].
  destruct (Hfb ltac:(discriminate)) as [Hlen' _].
  refine (conj Hlong (conj Hroom (conj _ Hlen'))).
  rewrite Hlen. reflexivity.
Defined.

(** *** The constraint table *)

(** C2, as the code has it.  On every adapter and for every content item,
    the hashtags returned never exceed [maxHashtags], and number at least
    [minHashtags] or, where the default pool is too small for that, the
    input's hashtags plus the whole pool.  The text returned stays within
    [maxTextLength] on Facebook, Instagram and TikTok, and on Twitter
    whenever the budget left by the hashtags is at least the 3 characters
    of the marker. *)
Theorem optimize_within_constraints p c :
  llen (get_hashtags (optimize p c)) <= maxHashtags p /\
  Z.min (minHashtags p) (llen (get_hashtags c) + llen (defaultHashtags p))
    <= llen (get_hashtags (optimize p c)) /\
  (p <> Twitter -> len (get_text (optimize p c)) <= maxTextLength p) /\
  (p = Twitter -> 3 <= TwitterAgent.available_chars c ->
   len (get_text (optimize p c)) <= maxTextLength p).
Proof.
  pose proof (available_chars_le c) as Hav.
  assert (Hnn : 0 <= llen (get_hashtags c)) by (unfold llen; lia).
  assert (Htext : (p = Twitter -> 3 <= TwitterAgent.available_chars c) ->
                  len (get_text (optimize p c)) <= maxTextLength p).
  { intros Hroom. rewrite optimize_text.
    destruct (Z.gtb_spec (len (get_text c)) (text_budget p c)) as [Hgt | Hle].
    + rewrite len_cut_ellipsis; [| destruct p; simpl in *; auto; lia | lia].
      destruct p; simpl; lia.
    + destruct p; simpl in *; lia. }
  split; [| split; [| split]].
  - rewrite optimize_hashtags. cbv zeta.
    destruct (Z.gtb_spec (llen (get_hashtags c)) (maxHashtags p)).
    { rewrite llen_list_upto by (destruct p; simpl; lia). lia. }
    destruct (Z.ltb_spec (llen (get_hashtags c)) (minHashtags p)); [| lia].
    rewrite llen_app, llen_list_upto by lia.
    destruct p; simpl in *; lia.
  - rewrite optimize_hashtags. cbv zeta.
    destruct (Z.gtb_spec (llen (get_hashtags c)) (maxHashtags p)).
    { rewrite llen_list_upto by (destruct p; simpl; lia).
      destruct p; simpl in *; lia. }
    destruct (Z.ltb_spec (llen (get_hashtags c)) (minHashtags p)); [| lia].
    rewrite llen_app, llen_list_upto by lia. lia.
  - intros Hp. apply Htext. by intros ->.
  - intros Hp Hroom. by apply Htext.
Qed.

(** C2 as stated fails on Instagram: the pool holds four tags, so content
    without hashtags comes back with 4, fewer than the minimum of 10. *)
Lemma instagram_below_min_hashtags :
  llen (get_hashtags (optimize Instagram bare_post)) = 4 /\
  ~ (minHashtags Instagram
     <= llen (get_hashtags (optimize Instagram bare_post))).
Proof. vm_compute. split; [done | auto]. Qed.

Lemma optimize_within_constraints_witness :
  3 <= TwitterAgent.available_chars busy_post /\
  len (get_text (optimize Twitter busy_post)) <= 280 /\
  llen (get_hashtags (optimize Twitter busy_post)) <= 5 /\
  10 <= llen (get_hashtags (optimize Instagram six_tag_post)) <= 30 /\
  len (get_text (optimize Instagram six_tag_post)) <= 300.
Proof.
  assert (Hroom : 3 <= TwitterAgent.available_chars busy_post)
    by discriminate.
  destruct (optimize_within_constraints Twitter busy_post)
    as (Htags & _ & _ & Htext).
  destruct (optimize_within_constraints Instagram six_tag_post)
    as (Hmax & Hmin & Hfits & _).
  exact (conj Hroom (conj (Htext eq_refl Hroom) (conj Htags
           (conj (conj Hmin Hmax) (Hfits ltac:(discriminate)))))).
Defined.

(** *** Topping up from the default pool *)

(** C6.  With fewer hashtags than the minimum and a pool large enough to
    make up the difference, exactly [minHashtags] hashtags are returned,
    and they start with the input's hashtags in their order. *)
Theorem hashtags_topped_up_to_min p c :
  llen (get_hashtags c) < minHashtags p ->
  minHashtags p - llen (get_hashtags c) <= llen (defaultHashtags p) ->
  llen (get_hashtags (optimize p c)) = minHashtags p /\
  get_hashtags c `prefix_of` get_hashtags (optimize p c).
Proof.
  intros Hfew Hpool. rewrite optimize_hashtags. cbv zeta.
  rewrite gtb_false by (destruct p; simpl in *; lia).
  rewrite (proj2 (Z.ltb_lt _ _) Hfew). split.
  - rewrite llen_app, llen_list_upto by lia. lia.
  - by apply prefix_app_r.
Qed.

Lemma hashtags_topped_up_witness :
  llen (get_hashtags six_tag_post) < minHashtags Instagram /\
  llen (get_hashtags (optimize Instagram six_tag_post)) = 10 /\
  get_hashtags six_tag_post `prefix_of`
    get_hashtags (optimize Instagram six_tag_post).
Proof.
  assert (Hfew : llen (get_hashtags six_tag_post) < minHashtags Instagram)
    by reflexivity.
  destruct (hashtags_topped_up_to_min Instagram six_tag_post Hfew
              ltac:(discriminate)) as [Hlen Hpre].
  exact (conj Hfew (conj Hlen Hpre)).
Defined.

(** The tags either pool offers are pairwise distinct. *)
Lemma defaultHashtags_NoDup p : NoDup (defaultHashtags p).
Proof.
  destruct p; simpl; [constructor | constructor | |];
    apply (bool_decide_unpack _); vm_compute; exact I.
Qed.

Lemma occurrences_app t (l1 l2 : list string) :
  occurrences t (l1 ++ l2) = (occurrences t l1 + occurrences t l2)%nat.
Proof. unfold occurrences. by rewrite filter_app, length_app. Qed.

Lemma occurrences_absent t (l : list string) : t ∉ l -> occurrences t l = 0%nat.
Proof.
  intros Hnot. unfold occurrences.
  induction l as [|x l IH]; [done |].
  apply not_elem_of_cons in Hnot as [Hne Hnot].
  rewrite filter_cons_False by congruence. auto.
Qed.

Lemma occurrences_NoDup t (l : list string) :
  NoDup l -> (occurrences t l <= 1)%nat.
Proof.
  unfold occurrences. induction 1 as [|x l Hx _ IH]; [simpl; lia |].
  destruct (decide (x = t)) as [-> | Hne].
  - rewrite filter_cons_True by done. simpl.
    fold (occurrences t l). rewrite occurrences_absent by done. lia.
  - by rewrite filter_cons_False.
Qed.

(** C7, as the code has it.  With fewer hashtags than the minimum, the
    agent appends the first [minHashtags - n] tags of its pool, in pool
    order and pairwise distinct, without looking at the input; so when no
    hashtag of the input is a pool tag, no pool tag occurs more than once
    in what is returned. *)
Theorem defaults_appended_unchecked p c :
  llen (get_hashtags c) < minHashtags p ->
  let added :=
    list_upto (defaultHashtags p) (minHashtags p - llen (get_hashtags c)) in
  get_hashtags (optimize p c) = get_hashtags c ++ added /\
  NoDup added /\
  ((forall t, t ∈ get_hashtags c -> t ∉ defaultHashtags p) ->
   forall t, t ∈ defaultHashtags p ->
     (occurrences t (get_hashtags (optimize p c)) <= 1)%nat).
Proof.
  intros Hfew added.
  assert (Hout : get_hashtags (optimize p c) = get_hashtags c ++ added).
  { rewrite optimize_hashtags. cbv zeta.
    rewrite gtb_false by (destruct p; simpl in *; lia).
    by rewrite (proj2 (Z.ltb_lt _ _) Hfew). }
  assert (Hnd : NoDup added).
  { unfold added, list_upto.
    apply (sublist_NoDup _ (defaultHashtags p));
      [apply defaultHashtags_NoDup | apply sublist_take]. }
  split; [done | split; [done |]].
  intros Hfresh t Ht. rewrite Hout, occurrences_app.
  rewrite (occurrences_absent t (get_hashtags c)).
  - apply occurrences_NoDup, Hnd.
  - intros Hin. by apply (Hfresh t).
Qed.

Lemma defaults_appended_witness :
  llen (get_hashtags six_tag_post) < minHashtags Instagram /\
  get_hashtags (optimize Instagram six_tag_post)
    = get_hashtags six_tag_post
      ++ ["#marketing"; "#business"; "#socialmedia"; "#content"] /\
  (occurrences "#marketing" (get_hashtags (optimize Instagram six_tag_post)) <= 1)%nat.
Proof.
  assert (Hfew : llen (get_hashtags six_tag_post) < minHashtags Instagram)
    by reflexivity.
  destruct (defaults_appended_unchecked Instagram six_tag_post Hfew)
    as (Hout & _ & Honce).
  refine (conj Hfew (conj Hout _)).
  apply Honce; [| apply list_elem_of_here].
  apply Forall_forall, (bool_decide_unpack _). vm_compute. exact I.
Defined.

(** C7 as stated fails: the Instagram agent appends ["#marketing"] to an
    input that already carries it, and returns it twice. *)
Lemma instagram_duplicates_pool_tag :
  llen (get_hashtags marketing_post) < minHashtags Instagram /\
  "#marketing" ∈ defaultHashtags Instagram /\
  occurrences "#marketing" (get_hashtags (optimize Instagram marketing_post))
    = 2%nat.
Proof.
  split; [| split].
  - vm_compute. reflexivity.
  - apply list_elem_of_here.
  - vm_compute. reflexivity.
Qed.

(** *** Idempotence *)

(** On Facebook, Instagram and TikTok, content within the constraints is
    returned as it came. *)
Lemma optimize_fixed p c :
  p <> Twitter -> within_constraints p c -> optimize p c = c.
Proof.
  intros Hp (Htext & Hmin & Hmax).
  destruct p; [done | | |]; simpl in *; open_optimize; decide_tests;
    first [reflexivity | lia].
Qed.

(** Optimizing twice is optimizing once on those three platforms, and on
    Twitter as long as the hashtags leave a budget of at least 3 characters
    to the text. *)
Lemma optimize_idempotent_with_room p c :
  within_constraints p c ->
  (p = Twitter -> 3 <= TwitterAgent.available_chars c) ->
  optimize p (optimize p c) = optimize p c.
Proof.
  intros Hin Hroom. destruct (decide (p = Twitter)) as [-> | Hp];
    [| by rewrite !(optimize_fixed p c Hp Hin)].
  destruct Hin as (Htext & Hmin & Hmax). simpl in *. specialize (Hroom eq_refl).
  assert (Htags : list_upto (get_hashtags c) 5 = get_hashtags c)
    by (by apply list_upto_all).
  set (c' := TwitterAgent.optimize_content c).
  assert (Htags' : get_hashtags c' = get_hashtags c).
  { unfold c', TwitterAgent.optimize_content. cbv zeta.
    by rewrite get_hashtags_set_hashtags. }
  assert (Havail : TwitterAgent.available_chars c'
                   = TwitterAgent.available_chars c).
  { unfold TwitterAgent.available_chars, TwitterAgent.hashtag_text.
    by rewrite Htags'. }
  assert (Hfits : len (get_text c') <= TwitterAgent.available_chars c).
  { pose proof (optimize_text Twitter c) as Ht. simpl in Ht. fold c' in Ht.
    rewrite Ht.
    destruct (Z.gtb_spec (len (get_text c)) (TwitterAgent.available_chars c));
      [rewrite len_cut_ellipsis |]; lia. }
  unfold TwitterAgent.optimize_content at 1. cbv zeta.
  rewrite Havail, gtb_false, Htags', Htags by done.
  unfold c', TwitterAgent.optimize_content. cbv zeta. rewrite Htags.
  by destruct (_ >? _).
Qed.

(** C5 at an input where it fails.  [wordy_post] is within Twitter's
    constraints (11 characters, 5 hashtags), but its hashtags take 284
    characters, which leaves a budget of -6: the first pass turns the text
    into ["He..."], the second pass turns that into ["..."]. *)
Theorem twitter_optimize_not_idempotent :
  within_constraints Twitter wordy_post /\
  TwitterAgent.available_chars wordy_post = -6 /\
  get_text (optimize Twitter wordy_post) = "He..." /\
  get_text (optimize Twitter (optimize Twitter wordy_post)) = "..." /\
  optimize Twitter (optimize Twitter wordy_post) <> optimize Twitter wordy_post.
Proof.
  split; [| split; [| split; [| split]]].
  - unfold within_constraints. vm_compute. repeat split; discriminate.
  - vm_compute. reflexivity.
  - vm_compute. reflexivity.
  - vm_compute. reflexivity.
  - intros Heq. apply (f_equal get_text) in Heq. vm_compute in Heq.
    discriminate.
Qed.

(** The same negative slice index lets a text through beyond the limit:
    under a hashtag of 275 characters the budget is 2, and a text of 300
    characters comes back with 302. *)
Lemma twitter_text_beyond_limit :
  TwitterAgent.available_chars oversized_tag_post = 2 /\
  len (get_text (optimize Twitter oversized_tag_post)) = 302.
Proof. split; vm_compute; reflexivity. Qed.

End Optimize.

(** ** Publishing *)

Section Publish.

Implicit Types (content : content) (client_id : string) (w : world).

Lemma twitter_publish_never_raises self content client_id w :
  publish_result "twitter" client_id
    (fst (TwitterAgent.publish_content self content client_id w)).
Proof.
  unfold TwitterAgent.publish_content, try_except, bind, raise, ret, getitem.
  destruct (TwitterAgent.client self) as [cl |]; simpl.
  - destruct (TwitterAgent.create_tweet cl _ w) as [[response | e] w1]; simpl.
    + destruct (truthy_dict _); simpl.
      * destruct (default ∅ (TwitterAgent.data response) !! "id"); simpl;
          eexists; (split; [reflexivity |]); simplify_map_eq; eauto 6.
      * eexists; (split; [reflexivity |]); simplify_map_eq; eauto 6.
    + eexists; (split; [reflexivity |]); simplify_map_eq; eauto 6.
  - eexists; (split; [reflexivity |]); simplify_map_eq; eauto 6.
Qed.

Lemma facebook_publish_never_raises self content client_id w :
  publish_result "facebook" client_id
    (fst (FacebookAgent.publish_content self content client_id w)).
Proof.
  unfold FacebookAgent.publish_content, try_except, bind, raise, ret.
  destruct (FacebookAgent.graph self) as [g |]; simpl.
  - destruct (FacebookAgent.put_object g _ _ _ w) as [[result | e] w1]; simpl;
      eexists; (split; [reflexivity |]); simplify_map_eq; eauto 6.
  - eexists; (split; [reflexivity |]); simplify_map_eq; eauto 6.
Qed.

Lemma instagram_publish_never_raises hash self content client_id w :
  publish_result "instagram" client_id
    (fst (InstagramAgent.publish_content hash self content client_id w)).
Proof.
  unfold InstagramAgent.publish_content, try_except, bind, raise, ret.
  destruct (negb _); simpl;
    eexists; (split; [reflexivity |]); simplify_map_eq; eauto 6.
Qed.

Lemma tiktok_publish_never_raises hash content client_id w :
  publish_result "tiktok" client_id
    (fst (TikTokAgent.publish_content hash content client_id w)).
Proof.
  unfold TikTokAgent.publish_content, try_except, bind, raise, ret. simpl.
  eexists; (split; [reflexivity |]); simplify_map_eq; eauto 6.
Qed.

(** The failure paths of the Twitter agent: no client, a call that raises,
    a reply without data, a reply whose data has no ["id"]. *)
Lemma twitter_publish_failures content client_id w :
  let failed msg : gmap string pyval :=
    {[ "status" := VStr "failed"; "platform" := VStr "twitter";
       "error" := VStr msg; "client_id" := VStr client_id ]} in
  fst (TwitterAgent.publish_content (TwitterAgent.Agent None)
         content client_id w)
    = Return (failed "Twitter client not initialized") /\
  fst (TwitterAgent.publish_content (TwitterAgent.Agent (Some failing_client))
         content client_id w)
    = Return (failed "403 Forbidden") /\
  fst (TwitterAgent.publish_content (TwitterAgent.Agent (Some dataless_client))
         content client_id w)
    = Return (failed "Tweet creation failed - no response data") /\
  fst (TwitterAgent.publish_content (TwitterAgent.Agent (Some idless_client))
         content client_id w)
    = Return (failed "'id'").
Proof. repeat split. Qed.

(** C3 at the input where it fails.  When the Graph API reply carries no
    ["id"], the Facebook agent reports success with a post identifier of
    [None], where the Twitter agent reports the failure. *)
Theorem facebook_publish_missing_id_is_success content client_id w :
  fst (FacebookAgent.publish_content (FacebookAgent.Agent (Some silent_graph))
         content client_id w)
  = Return {[ "status" := VStr "success"; "platform" := VStr "facebook";
              "post_id" := VNone; "client_id" := VStr client_id ]}.
Proof.
  unfold FacebookAgent.publish_content, try_except, bind, raise, ret. simpl.
  by rewrite lookup_empty.
Qed.

Lemma as_dict_text c : Dyn.as_dict c !! "text" = VStr <$> text c.
Proof. by destruct c as [[t |] [l |] [u |]]. Qed.

Lemma as_dict_hashtags c : Dyn.as_dict c !! "hashtags" = VList <$> hashtags c.
Proof. by destruct c as [[t |] [l |] [u |]]. Qed.

Lemma default_text c : default (VStr "") (VStr <$> text c) = VStr (get_text c).
Proof. unfold get_text. by destruct (text c). Qed.

Lemma default_hashtags c :
  default (VList []) (VList <$> hashtags c) = VList (get_hashtags c).
Proof. unfold get_hashtags. by destruct (hashtags c). Qed.

(** On typed content the two definitions of each [publish_content] agree. *)
Lemma publish_content_dict_typed hash hash_other self c client_id w :
  InstagramAgent.publish_content_dict hash hash_other self (Dyn.as_dict c)
    client_id w
  = InstagramAgent.publish_content hash self c client_id w /\
  TikTokAgent.publish_content_dict hash hash_other (Dyn.as_dict c) client_id w
  = TikTokAgent.publish_content hash c client_id w.
Proof.
  unfold InstagramAgent.publish_content_dict, InstagramAgent.publish_content,
         TikTokAgent.publish_content_dict, TikTokAgent.publish_content,
         InstagramAgent.compose_caption, TikTokAgent.compose_description.
  rewrite as_dict_text, as_dict_hashtags, default_text, default_hashtags.
  split.
  - unfold try_except, bind. destruct (negb _); [done |].
    by destruct (get_hashtags c).
  - unfold try_except, bind. by destruct (get_hashtags c).
Qed.

(** Whatever the dictionary holds, publishing on Instagram and on TikTok
    returns a result that names the platform and the client, and never
    raises. *)
Lemma simulated_publish_never_raises hash hash_other self
    (d : gmap string pyval) client_id w :
  publish_result "instagram" client_id
    (fst (InstagramAgent.publish_content_dict hash hash_other self d
            client_id w)) /\
  publish_result "tiktok" client_id
    (fst (TikTokAgent.publish_content_dict hash hash_other d
            client_id w)).
Proof.
  split.
  - unfold InstagramAgent.publish_content_dict, try_except.
    match goal with
    | |- context [?body w] =>
        lazymatch body with
        | if _ then _ else _ => destruct (body w) as [[r | e] w1] eqn:Hbody
        end
    end; simpl.
    + unfold bind, ret, raise in Hbody.
      repeat case_match; simplify_eq/=;
        eexists; (split; [reflexivity |]); simplify_map_eq; eauto 6.
    + unfold bind, log, ret. simpl.
      eexists; (split; [reflexivity |]); simplify_map_eq; eauto 6.
  - unfold TikTokAgent.publish_content_dict, try_except.
    match goal with
    | |- context [bind ?m ?k w] =>
        destruct (bind m k w) as [[r | e] w1] eqn:Hbody
    end; simpl.
    + unfold bind, ret, raise in Hbody.
      repeat case_match; simplify_eq/=;
        eexists; (split; [reflexivity |]); simplify_map_eq; eauto 6.
    + unfold bind, log, ret. simpl.
      eexists; (split; [reflexivity |]); simplify_map_eq; eauto 6.
Qed.

(** C10, as the code has it.  For content whose text, when present, is a
    string and whose hashtags, when present, are a list of strings, the
    Instagram agent, with an access token configured, and the TikTok agent,
    always, return the success dictionary and log nothing.  The caption is
    the text, followed when there are hashtags by a blank line and the
    hashtags, each behind a ["#"], separated by spaces; the post identifier is
    the platform prefix, the client id and the hash of the caption reduced
    to [0 .. 9999]. *)
Theorem simulated_publish_succeeds_on_typed_content hash hash_other token c
    client_id w :
  truthy_str token = true ->
  let tags := get_hashtags c in
  let caption :=
    if truthy_list tags
    then get_text c +:+ nl +:+ nl +:+ String.concat " " (String.append "#" <$> tags)
    else get_text c in
  InstagramAgent.publish_content_dict hash hash_other
      (InstagramAgent.Agent token) (Dyn.as_dict c) client_id w
    = (Return {[ "status" := VStr "success";
                 "platform" := VStr "instagram";
                 "post_id" := VStr ("ig_" +:+ client_id +:+ "_"
                                    +:+ pretty (hash caption `mod` 10000));
                 "client_id" := VStr client_id;
                 "caption" := VStr caption ]}, w) /\
  TikTokAgent.publish_content_dict hash hash_other (Dyn.as_dict c) client_id w
    = (Return {[ "status" := VStr "success";
                 "platform" := VStr "tiktok";
                 "post_id" := VStr ("tiktok_" +:+ client_id +:+ "_"
                                    +:+ pretty (hash caption `mod` 10000));
                 "client_id" := VStr client_id;
                 "description" := VStr caption;
                 "note" := VStr "TikTok posting requires video content - this is a simulation" ]}, w) /\
  0 <= hash caption `mod` 10000 < 10000.
Proof.
  intros Htoken tags caption.
  unfold InstagramAgent.publish_content_dict, TikTokAgent.publish_content_dict,
         try_except, bind.
  rewrite as_dict_text, as_dict_hashtags, default_text, default_hashtags.
  simpl. rewrite Htoken. simpl.
  unfold caption, tags.
  split; [| split]; [| | apply Z.mod_pos_bound; lia];
    by destruct (get_hashtags c).
Qed.

Lemma simulated_publish_witness :
  truthy_str (Some "EAAB") = true /\
  fst (InstagramAgent.publish_content_dict length_hash (fun _ => 0)
         (InstagramAgent.Agent (Some "EAAB")) (Dyn.as_dict marketing_post)
         "client_001" w0)
  = Return {[ "status" := VStr "success";
              "platform" := VStr "instagram";
              "post_id" := VStr "ig_client_001_751";
              "client_id" := VStr "client_001";
              "caption" := VStr ("Spring sale" +:+ nl +:+ nl +:+ "##marketing") ]} /\
  fst (TikTokAgent.publish_content_dict length_hash (fun _ => 0)
         (Dyn.as_dict bare_post) "client_001" w0)
  = Return {[ "status" := VStr "success";
              "platform" := VStr "tiktok";
              "post_id" := VStr "tiktok_client_001_348";
              "client_id" := VStr "client_001";
              "description" := VStr "Spring sale";
              "note" := VStr "TikTok posting requires video content - this is a simulation" ]}.
Proof.
  destruct (simulated_publish_succeeds_on_typed_content length_hash
              (fun _ => 0) (Some "EAAB") marketing_post "client_001" w0
              eq_refl) as (Hig & _ & _).
  destruct (simulated_publish_succeeds_on_typed_content length_hash
              (fun _ => 0) (Some "EAAB") bare_post "client_001" w0
              eq_refl) as (_ & Htt & _).
  rewrite Hig, Htt. repeat split; reflexivity.
Defined.

(** C10 as stated fails: a dictionary whose text is [None], under one
    hashtag, makes the in-place extension of the caption raise inside the
    [try], and both agents return the failed result. *)
Lemma untyped_content_fails_publish :
  fst (InstagramAgent.publish_content_dict length_hash (fun _ => 0)
         (InstagramAgent.Agent (Some "EAAB")) textless_post "client_001" w0)
  = Return {[ "status" := VStr "failed";
              "platform" := VStr "instagram";
              "error" := VStr "unsupported operand type(s) for +=: 'NoneType' and 'str'";
              "client_id" := VStr "client_001" ]} /\
  fst (TikTokAgent.publish_content_dict length_hash (fun _ => 0)
         textless_post "client_001" w0)
  = Return {[ "status" := VStr "failed";
              "platform" := VStr "tiktok";
              "error" := VStr "unsupported operand type(s) for +=: 'NoneType' and 'str'";
              "client_id" := VStr "client_001" ]}.
Proof. split; reflexivity. Qed.

End Publish.

(** ** The vector store before initialization *)

Section NotInitialized.

Import VectorStoreManager.

Context {vector real : Type}.
Variable one_minus : real -> real.
Variable hash : string -> Z.
Variable isoformat : Z -> string.

Implicit Types (self : @manager vector real) (w : world).

(** C8, as the code has it.  While [self.collection] is unset,
    [store_content] logs the error and raises "Vector store not
    initialized" to its caller; [search_similar_content],
    [get_content_by_id] and [delete_content] log the same error and return
    normally, with an empty list, [None] and [False]. *)
Theorem calls_before_initialize self w content metadata content_id
    query_text limit filter_metadata (id : string) :
  collection self = None ->
  store_content hash isoformat self content metadata content_id w
    = (Raise (Exception "Vector store not initialized"),
       logging ERROR "Content storage failed: Vector store not initialized" w) /\
  search_similar_content one_minus self query_text limit filter_metadata w
    = (Return [],
       logging ERROR "Content search failed: Vector store not initialized" w) /\
  get_content_by_id self id w
    = (Return None,
       logging ERROR "Content retrieval failed: Vector store not initialized" w) /\
  delete_content self id w
    = (Return false,
       logging ERROR "Content deletion failed: Vector store not initialized" w).
Proof.
  intros Hnone.
  unfold store_content, search_similar_content, get_content_by_id,
         delete_content, try_except, bind, raise, ret, log, logging.
  rewrite Hnone. repeat split.
Qed.

(** An encoder that never loaded has the same effect on [store_content]
    and [search_similar_content], also once the collection is there. *)
Lemma calls_without_encoder self w content metadata content_id
    query_text limit filter_metadata :
  encoder self = None ->
  fst (store_content hash isoformat self content metadata content_id w)
    = Raise (Exception "Vector store not initialized") /\
  fst (search_similar_content one_minus self query_text limit
         filter_metadata w)
    = Return [].
Proof.
  intros Hnone.
  unfold store_content, search_similar_content, try_except, bind, raise,
         ret, log.
  rewrite Hnone. by destruct (collection self).
Qed.

End NotInitialized.

(** C8 as stated fails for three of the four calls: on the manager as
    [__init__] leaves it, searching, getting and deleting return normally. *)
Lemma search_before_initialize_returns :
  fst (VectorStoreManager.search_similar_content (fun d : Z => 1 - d)
         (@VectorStoreManager.fresh (list Z) Z) "spring campaigns" 10 None w0)
    = Return [] /\
  fst (VectorStoreManager.get_content_by_id
         (@VectorStoreManager.fresh (list Z) Z) "campaign_42" w0)
    = Return None /\
  fst (VectorStoreManager.delete_content
         (@VectorStoreManager.fresh (list Z) Z) "campaign_42" w0)
    = Return false.
Proof. repeat split. Qed.

Lemma calls_before_initialize_witness :
  VectorStoreManager.collection (@VectorStoreManager.fresh (list Z) Z) = None /\
  fst (VectorStoreManager.store_content length_hash pretty
         (@VectorStoreManager.fresh (list Z) Z) "Campaign memory"
         {[ "type" := VStr "campaign_memory" ]} (Some "campaign_42") w0)
    = Raise (Exception "Vector store not initialized").
Proof.
  split; [reflexivity |].
  pose proof (calls_before_initialize (fun d : Z => 1 - d) length_hash pretty
                (@VectorStoreManager.fresh (list Z) Z) w0 "Campaign memory"
                {[ "type" := VStr "campaign_memory" ]} (Some "campaign_42")
                "spring campaigns" 10 None "campaign_42" eq_refl)
    as (Hstore & _).
  by rewrite Hstore.
Defined.

(** ** The campaign workflow *)

Section Workflow.

Import ExecutiveAgent.

Implicit Types (client objective brief : string) (platforms : list string)
               (campaign : option string) (w : world).




(** C9, as the code has it.  One execution goes through four statuses,
    ["started"], ["brief_analyzed"], ["content_generated"], ["completed"],
    each one step after the one before, and every transition stamps
    [updated_at] with the clock reading taken at that transition; the last
    configuration carries the state [execute_campaign] returns. *)
Theorem status_moves_forward client objective brief platforms campaign w :
  let tr := campaign_trace client objective brief platforms campaign w in
  statuses tr
    = ["started"; "brief_analyzed"; "content_generated"; "completed"] /\
  status_rank <$> statuses tr
    = [Some 0; Some 1; Some 2; Some 3]%nat /\
  stamps tr
    = [wall w (1 + reads w); wall w (2 + reads w);
       wall w (3 + reads w); wall w (4 + reads w)] /\
  (last tr ≫= config_state)
    = returned (fst (execute_campaign client objective brief platforms
                       campaign w)).
Proof. repeat split. Qed.

(** C9 as stated fails: the status after the first transition is
    ["brief_analyzed"], so the statuses of a run are not the three of the
    claim. *)
Lemma status_passes_brief_analyzed :
  statuses (campaign_trace "client_001" "awareness" "Spring sale"
              ["twitter"] None w0) !! 1%nat
    = Some "brief_analyzed" /\
  statuses (campaign_trace "client_001" "awareness" "Spring sale"
              ["twitter"] None w0)
    <> ["started"; "content_generated"; "completed"].
Proof. split; [reflexivity | discriminate]. Qed.

End Workflow.

(** ** More on optimize *)

Section OptimizeMore.

Implicit Types (p : platform) (c : content).

(** How many hashtags come back. *)
Lemma optimize_hashtags_count p c :
  llen (get_hashtags (optimize p c)) =
    let n := llen (get_hashtags c) in
    if n >? maxHashtags p then maxHashtags p
    else if n <? minHashtags p
    then n + Z.min (minHashtags p - n) (llen (defaultHashtags p))
    else n.
Proof.
  rewrite optimize_hashtags. cbv zeta.
  destruct (Z.gtb_spec (llen (get_hashtags c)) (maxHashtags p)).
  { rewrite llen_list_upto by (destruct p; simpl; lia). lia. }
  destruct (Z.ltb_spec (llen (get_hashtags c)) (minHashtags p)); [| done].
  rewrite llen_app, llen_list_upto by lia. lia.
Qed.

Lemma optimize_text_fits p c :
  p <> Twitter -> len (get_text (optimize p c)) <= maxTextLength p.
Proof.
  intros Hp. rewrite optimize_text.
  replace (text_budget p c) with (maxTextLength p) by (by destruct p).
  destruct (Z.gtb_spec (len (get_text c)) (maxTextLength p)); [| lia].
  rewrite len_cut_ellipsis; [lia | destruct p; simpl; lia | lia].
Qed.

(** X1.  With more hashtags than the platform allows, the first [maxHashtags]
    are kept, in their order, on every platform. *)
Theorem hashtags_cut_to_max p c :
  maxHashtags p < llen (get_hashtags c) ->
  get_hashtags (optimize p c)
  = take (Z.to_nat (maxHashtags p)) (get_hashtags c).
Proof.
  intros Hmany. rewrite optimize_hashtags. cbv zeta.
  rewrite gtb_true by done. unfold list_upto.
  rewrite slice_stop_nonneg; [done | destruct p; simpl; lia].
Qed.

Lemma hashtags_cut_to_max_witness :
  maxHashtags Twitter < llen (get_hashtags busy_post) /\
  get_hashtags (optimize Twitter busy_post) = ["a"; "b"; "c"; "d"; "e"].
Proof.
  assert (Hmany : maxHashtags Twitter < llen (get_hashtags busy_post))
    by reflexivity.
  refine (conj Hmany _).
  rewrite (hashtags_cut_to_max Twitter busy_post Hmany). reflexivity.
Defined.

(** What Facebook and TikTok return is always within their constraints. *)
Lemma facebook_tiktok_output_within p c :
  p = Facebook \/ p = TikTok -> within_constraints p (optimize p c).
Proof.
  intros Hp. assert (0 <= llen (get_hashtags c)) by (unfold llen; lia).
  split; [apply optimize_text_fits; by destruct Hp as [-> | ->] |].
  rewrite optimize_hashtags_count. cbv zeta.
  destruct Hp as [-> | ->]; simpl;
    repeat match goal with
           | |- context [?a >? ?b] => destruct (Z.gtb_spec a b)
           | |- context [?a <? ?b] => destruct (Z.ltb_spec a b)
           end; try lia.
  change (llen TikTokAgent.tiktok_hashtags) with 5. lia.
Qed.

(** X2.  On Facebook and on TikTok, optimizing twice is optimizing once, for
    every content item. *)
Theorem facebook_tiktok_optimize_idempotent c :
  optimize Facebook (optimize Facebook c) = optimize Facebook c /\
  optimize TikTok (optimize TikTok c) = optimize TikTok c.
Proof.
  split; apply optimize_fixed; try done; apply facebook_tiktok_output_within;
    auto.
Qed.

(** X3.  On Instagram the pool of four tags may take three passes to reach the
    minimum of ten; after three passes nothing changes any more. *)
Theorem instagram_optimize_settles c :
  let o := optimize Instagram in
  o (o (o (o c))) = o (o (o c)).
Proof.
  intros o. apply optimize_fixed; [done |].
  assert (0 <= llen (get_hashtags c)) by (unfold llen; lia).
  split; [by apply optimize_text_fits |].
  unfold o. rewrite !optimize_hashtags_count. cbv zeta. simpl.
  change (llen InstagramAgent.generic_hashtags) with 4.
  repeat match goal with
         | |- context [?a >? ?b] => destruct (Z.gtb_spec a b)
         | |- context [?a <? ?b] => destruct (Z.ltb_spec a b)
         end; lia.
Qed.

End OptimizeMore.

(** ** More on publishing *)

Section PublishMore.

Implicit Types (c content : content) (client_id : string) (w : world).

Lemma len_nl : len nl = 1.
Proof. reflexivity. Qed.

(** The composed tweet never exceeds 280 characters. *)
Lemma compose_tweet_fits content : len (TwitterAgent.compose_tweet content) <= 280.
Proof.
  unfold TwitterAgent.compose_tweet. cbv zeta.
  match goal with
  | |- context [?a >? 280] => destruct (Z.gtb_spec a 280); [| done]
  end.
  change 277 with (280 - 3). rewrite len_cut_ellipsis; lia.
Qed.

(** X4.  A successful publish on Twitter echoes the text it sent, the client
    accepted exactly that text, and the text has at most 280 characters. *)
Theorem tweet_sent_within_limit cl content client_id w d :
  fst (TwitterAgent.publish_content (TwitterAgent.Agent (Some cl))
         content client_id w) = Return d ->
  d !! "status" = Some (VStr "success") ->
  let sent := TwitterAgent.compose_tweet content in
  d !! "text" = Some (VStr sent) /\
  len sent <= 280 /\
  exists response w',
    TwitterAgent.create_tweet cl sent w = (Return response, w') /\
    default ∅ (TwitterAgent.data response) !! "id" = d !! "post_id".
Proof.
  intros Hret Hok sent. pose proof (compose_tweet_fits content) as Hfits.
  unfold TwitterAgent.publish_content, try_except, bind, raise, ret, getitem,
         log in Hret.
  simpl in Hret. fold (TwitterAgent.compose_tweet content) in Hret. fold sent in Hret.
  destruct (TwitterAgent.create_tweet cl sent w) as [[response | e] w1] eqn:Hcall;
    simpl in Hret.
  - destruct (truthy_dict _); simpl in Hret.
    + destruct (default ∅ (TwitterAgent.data response) !! "id") as [post_id |] eqn:Hid;
        simpl in Hret; injection Hret as <-; simplify_map_eq.
      split; [done | split; [done |]]. eauto.
    + injection Hret as <-. simplify_map_eq.
  - injection Hret as <-. simplify_map_eq.
Qed.

Lemma tweet_sent_witness :
  len (TwitterAgent.compose_tweet busy_post) <= 280 /\
  returned (fst (TwitterAgent.publish_content
                   (TwitterAgent.Agent (Some accepting_client))
                   busy_post "client_001" w0)) ≫= (.!! "post_id")
    = Some (VStr "1850").
Proof.
  destruct (tweet_sent_within_limit accepting_client busy_post "client_001" w0
              _ eq_refl eq_refl) as (_ & Hfits & _).
  split; [exact Hfits | reflexivity].
Defined.

(** X5.  What the Twitter agent optimized, it publishes whole: as long as the
    hashtags leave a budget of at least 3 characters, the tweet is the
    optimized text, a blank line and every kept hashtag, and the publishing
    step does not cut it a second time. *)
Theorem optimized_tweet_sent_whole c :
  3 <= TwitterAgent.available_chars c ->
  let c' := TwitterAgent.optimize_content c in
  get_hashtags c' = take 5 (get_hashtags c) /\
  TwitterAgent.compose_tweet c' =
    (if truthy_list (get_hashtags c')
     then get_text c' +:+ nl +:+ nl +:+ join " " (hash_tag <$> get_hashtags c')
     else get_text c').
Proof.
  intros Hroom c'.
  assert (Htags : get_hashtags c' = list_upto (get_hashtags c) 5) by reflexivity.
  split; [rewrite Htags; unfold list_upto; by rewrite slice_stop_nonneg |].
  assert (Hfits : len (get_text c') <= TwitterAgent.available_chars c).
  { pose proof (optimize_text Twitter c) as Ht. simpl in Ht. fold c' in Ht.
    rewrite Ht.
    destruct (Z.gtb_spec (len (get_text c)) (TwitterAgent.available_chars c));
      [rewrite len_cut_ellipsis |]; lia. }
  unfold TwitterAgent.available_chars, TwitterAgent.hashtag_text in Hfits.
  rewrite <- Htags in Hfits.
  pose proof (len_nonneg (join " " (hash_tag <$> get_hashtags c'))).
  unfold TwitterAgent.compose_tweet. cbv zeta.
  rewrite gtb_false; [done |].
  destruct (truthy_list _); [| lia].
  rewrite !len_app, len_nl. lia.
Qed.

Lemma optimized_tweet_witness :
  3 <= TwitterAgent.available_chars busy_post /\
  len (TwitterAgent.compose_tweet (TwitterAgent.optimize_content busy_post))
    = 280.
Proof.
  assert (Hroom : 3 <= TwitterAgent.available_chars busy_post) by discriminate.
  refine (conj Hroom _).
  destruct (optimized_tweet_sent_whole busy_post Hroom) as [_ Hwhole].
  rewrite Hwhole. reflexivity.
Defined.

(** X6.  What the Facebook agent posts and returns depends on the text and the
    image URL alone: hashtags never reach the post. *)
Theorem facebook_publish_reads_text_and_image self c1 c2 client_id w :
  get_text c1 = get_text c2 ->
  image_url c1 = image_url c2 ->
  FacebookAgent.publish_content self c1 client_id w
  = FacebookAgent.publish_content self c2 client_id w.
Proof.
  intros Htext Himage. unfold FacebookAgent.publish_content.
  by rewrite Htext, Himage.
Qed.

Lemma facebook_publish_reads_witness :
  get_hashtags marketing_post <> get_hashtags retagged_post /\
  FacebookAgent.publish_content (FacebookAgent.Agent (Some silent_graph))
    marketing_post "client_001" w0
  = FacebookAgent.publish_content (FacebookAgent.Agent (Some silent_graph))
      retagged_post "client_001" w0.
Proof.
  split; [discriminate |].
  exact (facebook_publish_reads_text_and_image
           (FacebookAgent.Agent (Some silent_graph))
           marketing_post retagged_post "client_001" w0 eq_refl eq_refl).
Defined.

(** X7.  Without an access token, unset or empty, the Instagram agent composes
    nothing: it logs one error and returns the failed result that names the
    missing token. *)
Theorem instagram_publish_without_token hash token content client_id w :
  truthy_str token = false ->
  InstagramAgent.publish_content hash (InstagramAgent.Agent token)
    content client_id w
  = (Return {[ "status" := VStr "failed";
               "platform" := VStr "instagram";
               "error" := VStr "Instagram access token not configured";
               "client_id" := VStr client_id ]},
     logging ERROR
       "Instagram publishing failed: Instagram access token not configured" w).
Proof.
  intros Htoken.
  unfold InstagramAgent.publish_content, try_except, bind, raise, ret, log.
  simpl. by rewrite Htoken.
Qed.

Lemma instagram_publish_without_token_witness :
  truthy_str (Some "") = false /\
  returned (fst (InstagramAgent.publish_content length_hash
                   (InstagramAgent.Agent (Some "")) marketing_post
                   "client_001" w0)) ≫= (.!! "status")
    = Some (VStr "failed").
Proof.
  split; [reflexivity |].
  rewrite (instagram_publish_without_token length_hash (Some "")
             marketing_post "client_001" w0 eq_refl).
  reflexivity.
Defined.

End PublishMore.

(** ** Analytics *)

Section Analytics.

Implicit Types (post_id : string) (w : world).

(** X8.  [get_analytics] on Twitter never raises: whatever the client does, the
    result names the platform and the post and carries either the five
    integer counters or an error text. *)
Theorem twitter_get_analytics_never_raises tweepy self post_id w :
  analytics_result "twitter" post_id
    (fst (TwitterAgent.get_analytics tweepy self post_id w)) twitter_counters.
Proof.
  unfold TwitterAgent.get_analytics, try_except, bind, raise, ret, log.
  destruct (TwitterAgent.client self) as [cl |]; simpl.
  - destruct (TwitterAgent.get_tweet tweepy cl _ _ w) as [[tweet | e] w1]; simpl.
    + destruct (TwitterAgent.tweet_data tweet) as [t |]; simpl.
      * destruct (TwitterAgent.public_metrics t) as [metrics |]; simpl;
          eexists; (split; [reflexivity |]); simplify_map_eq;
          (split; [done | split; [done |]]).
        -- left. eexists. split; [done |]. split; [| done].
           unfold twitter_counters, TwitterAgent.counter. eauto 10.
        -- right. eauto.
      * eexists; (split; [reflexivity |]); simplify_map_eq; eauto 10.
    + eexists; (split; [reflexivity |]); simplify_map_eq; eauto 10.
  - eexists; (split; [reflexivity |]); simplify_map_eq; eauto 10.
Qed.

(** X9.  [get_analytics] on Facebook never raises: the result names the
    platform and the post and carries either what the Graph API returned for
    [<post_id>/insights] or an error text. *)
Theorem facebook_get_analytics_never_raises facebook self post_id w :
  analytics_result "facebook" post_id
    (fst (FacebookAgent.get_analytics facebook self post_id w))
    (fun i => exists g w',
        FacebookAgent.graph self = Some g /\
        FacebookAgent.get_object facebook g (post_id +:+ "/insights")
          "post_impressions,post_engaged_users,post_clicks" w
        = (Return i, w')).
Proof.
  unfold FacebookAgent.get_analytics, try_except, bind, raise, ret, log.
  destruct (FacebookAgent.graph self) as [g |]; simpl.
  - destruct (FacebookAgent.get_object facebook g _ _ w) as [[i | e] w1] eqn:Hcall;
      simpl; eexists; (split; [reflexivity |]); simplify_map_eq;
      (split; [done | split; [done |]]).
    + left. eauto 10.
    + right. eauto.
  - eexists; (split; [reflexivity |]); simplify_map_eq; eauto 10.
Qed.

(** A tweet whose metrics lack a counter reports that counter as 0. *)
Lemma twitter_missing_counters_are_zero :
  fst (TwitterAgent.get_analytics unverified_api
         (TwitterAgent.Agent (Some accepting_client)) "1850" w0)
  = Return {[ "platform" := JStr "twitter"; "post_id" := JStr "1850";
              "insights" := JDict
                [("retweets", JInt 0); ("likes", JInt 7); ("replies", JInt 0);
                 ("quotes", JInt 0); ("impressions", JInt 0)] ]}.
Proof. reflexivity. Qed.

End Analytics.

(** ** Connecting and disconnecting *)

Section Lifecycle.

Implicit Types (w : world).

(** X10.  [initialize] on Twitter never raises, and it installs the client
    exactly when the constructor returned one, also when the credentials
    could not be verified afterwards; a constructor that raises leaves the
    client as it was. *)
Theorem twitter_initialize_installs_client tweepy self w :
  result (TwitterAgent.initialize tweepy self w) = Return tt /\
  TwitterAgent.client (attributes (TwitterAgent.initialize tweepy self w))
  = match fst (TwitterAgent.new_client tweepy w) with
    | Return cl => Some cl
    | Raise _ => TwitterAgent.client self
    end.
Proof.
  unfold TwitterAgent.initialize, mtry_except, mbind, call, assign, result,
         attributes.
  destruct (TwitterAgent.new_client tweepy w) as [[cl | e] w1]; simpl;
    [| done].
  destruct (TwitterAgent.get_me tweepy cl w1) as [[me | e] w2]; simpl;
    [| done].
  by destruct (truthy_dict _).
Qed.

(** X11.  After [shutdown] the Twitter agent has no client, whatever it had
    before: publishing and analytics then report "Twitter client not
    initialized" as a failed result, without raising. *)
Theorem twitter_shutdown_disconnects tweepy self content client_id post_id w w' :
  let off := attributes (TwitterAgent.shutdown self w) in
  result (TwitterAgent.shutdown self w) = Return tt /\
  off = TwitterAgent.Agent None /\
  fst (TwitterAgent.publish_content off content client_id w')
  = Return {[ "status" := VStr "failed"; "platform" := VStr "twitter";
              "error" := VStr "Twitter client not initialized";
              "client_id" := VStr client_id ]} /\
  fst (TwitterAgent.get_analytics tweepy off post_id w')
  = Return {[ "platform" := JStr "twitter"; "post_id" := JStr post_id;
              "error" := JStr "Twitter client not initialized" ]}.
Proof. repeat split. Qed.

(** X12.  [initialize] on Facebook never raises, and it installs the Graph API
    handle exactly when the constructor returned one. *)
Theorem facebook_initialize_installs_graph facebook self w :
  result (FacebookAgent.initialize facebook self w) = Return tt /\
  FacebookAgent.graph (attributes (FacebookAgent.initialize facebook self w))
  = match fst (FacebookAgent.new_graph facebook w) with
    | Return g => Some g
    | Raise _ => FacebookAgent.graph self
    end.
Proof.
  unfold FacebookAgent.initialize, mtry_except, mbind, call, assign, result,
         attributes.
  by destruct (FacebookAgent.new_graph facebook w) as [[g | e] w1].
Qed.

(** X13.  After [shutdown] the Facebook agent has no handle: publishing and
    analytics then report "Facebook Graph API not initialized" as a failed
    result, without raising. *)
Theorem facebook_shutdown_disconnects facebook self content client_id post_id w w' :
  let off := attributes (FacebookAgent.shutdown self w) in
  result (FacebookAgent.shutdown self w) = Return tt /\
  off = FacebookAgent.Agent None /\
  fst (FacebookAgent.publish_content off content client_id w')
  = Return {[ "status" := VStr "failed"; "platform" := VStr "facebook";
              "error" := VStr "Facebook Graph API not initialized";
              "client_id" := VStr client_id ]} /\
  fst (FacebookAgent.get_analytics facebook off post_id w')
  = Return {[ "platform" := JStr "facebook"; "post_id" := JStr post_id;
              "error" := JStr "Facebook Graph API not initialized" ]}.
Proof. repeat split. Qed.

(** X14.  [initialize] on Instagram and on TikTok never raises, whatever the
    HTTP call does; without a token no HTTP call is made and a single warning
    is logged. *)
Theorem token_agents_initialize requests_get ig tt w :
  fst (InstagramAgent.initialize requests_get ig w) = Return () /\
  fst (TikTokAgent.initialize requests_get tt w) = Return () /\
  (truthy_str (InstagramAgent.FACEBOOK_ACCESS_TOKEN ig) = false ->
   InstagramAgent.initialize requests_get ig w
   = (Return (), logging WARNING "Instagram access token not configured" w)) /\
  (truthy_str (TikTokAgent.TIKTOK_ACCESS_TOKEN tt) = false ->
   TikTokAgent.initialize requests_get tt w
   = (Return (), logging WARNING "TikTok access token not configured" w)).
Proof.
  unfold InstagramAgent.initialize, TikTokAgent.initialize, try_except, bind,
         log.
  repeat split.
  - destruct (truthy_str _); [| done].
    destruct (requests_get _ _ w) as [[response | e] w1]; [| done].
    by destruct (decide _).
  - destruct (truthy_str _); [| done].
    destruct (requests_get _ _ w) as [[response | e] w1]; [| done].
    by destruct (decide _).
  - by intros ->.
  - by intros ->.
Qed.

End Lifecycle.

(** ** More on the vector store *)

Section StoreMore.

Import VectorStoreManager.

Context {vector real : Type}.
Variable one_minus : real -> real.
Variable hash : string -> Z.
Variable isoformat : Z -> string.
Variable mean : list pyval -> Z -> outcome real.
Variable json_dumps : gmap string pyval -> string.

Implicit Types (self : @manager vector real) (w : world).

(** A handler that returns makes the whole [try] return. *)
Lemma try_except_returns {A} (body : M A) (handler : exn -> M A) w :
  (forall e w', exists a, fst (handler e w') = Return a) ->
  exists a, fst (try_except body handler w) = Return a.
Proof.
  intros Hh. unfold try_except.
  destruct (body w) as [[a | e] w']; [by exists a | apply Hh].
Qed.

(** X15.  Searching, getting and deleting never raise: whatever state the manager
    is in and whatever the index and the encoder do, the caller gets a list,
    an optional record and a boolean. *)
Theorem store_queries_never_raise self query_text limit filter_metadata id w :
  (exists hits, fst (search_similar_content one_minus self query_text limit
                       filter_metadata w) = Return hits) /\
  (exists record, fst (get_content_by_id self id w) = Return record) /\
  (exists done, fst (delete_content self id w) = Return done).
Proof.
  repeat split; apply try_except_returns; intros e w';
    unfold bind, log, ret; simpl; eauto.
Qed.

(** X16.  [delete_content] always answers with a boolean.  It answers
    [True] exactly when the collection is there and its [delete] call
    returned, and [False] exactly when the collection is unset or that call
    raised; whether a record of that id existed plays no part. *)
Theorem delete_content_reports self id w :
  exists done,
    fst (delete_content self id w) = Return done /\
    (done = true <->
     exists coll w', collection self = Some coll /\
                     delete coll [id] w = (Return (), w')) /\
    (done = false <->
     collection self = None \/
     exists coll e w', collection self = Some coll /\
                       delete coll [id] w = (Raise e, w')).
Proof.
  unfold delete_content, try_except, bind, raise, ret, log.
  destruct (collection self) as [coll |]; simpl.
  - destruct (delete coll [id] w) as [[[] | e] w'] eqn:Hdel; simpl.
    + exists true. split; [done |]. split.
      * split; [eauto | done].
      * split; [done |]. intros [? | (coll' & e & w'' & [= <-] & Hdel')];
          [done |]. rewrite Hdel in Hdel'. done.
    + exists false. split; [done |]. split.
      * split; [done |]. intros (coll' & w'' & [= <-] & Hdel').
        rewrite Hdel in Hdel'. done.
      * split; [| done]. intros _. right. eauto.
  - exists false. split; [done |]. split.
    + split; [done | by intros (? & ? & ? & ?)].
    + split; [by left | done].
Qed.

(** The world after one more reading of the clock. *)
Lemma datetime_now_reads w :
  datetime_now w
  = (Return (wall w (reads w)), World (logged w) (wall w) (S (reads w))).
Proof. reflexivity. Qed.

(** X17.  Storing under a caller's id.  On an initialized manager, once the text
    is embedded and the index accepts the write, [store_content] returns the
    caller's id; the record written carries the caller's metadata with
    ["stored_at"] and ["content_length"] set over it, the latter to the
    length of the text. *)
Theorem store_content_under_given_id self coll enc content metadata id
    v w w1 w2 :
  collection self = Some coll ->
  encoder self = Some enc ->
  id <> "" ->
  encode enc content w = (Return v, w1) ->
  let stored := World (logged w1) (wall w1) (S (reads w1)) in
  let written :=
    <[ "content_length" := VInt (len content) ]>
      (<[ "stored_at" := VStr (isoformat (wall w1 (reads w1))) ]> metadata) in
  add coll [v] [content] [written] [id] stored = (Return (), w2) ->
  store_content hash isoformat self content metadata (Some id) w
    = (Return id, logging DEBUG ("Content stored with ID: " +:+ id) w2) /\
  written !! "content_length" = Some (VInt (len content)) /\
  (forall key, key <> "stored_at" -> key <> "content_length" ->
     written !! key = metadata !! key).
Proof.
  intros Hcoll Henc Hid Hencode stored written Hadd.
  split; [| split].
  - unfold store_content, try_except, bind. rewrite Hcoll, Henc, Hencode.
    destruct id as [| ch id]; [done |]. simpl.
    fold stored written. by rewrite Hadd.
  - unfold written. by simplify_map_eq.
  - intros key H1 H2. unfold written. by simplify_map_eq.
Qed.


(** *** Search results *)

Lemma for_each_seq_lookup {B} (l : list B) (body : nat -> M B) (i : nat) w :
  (forall j b, l !! j = Some b -> body (i + j)%nat w = (Return b, w)) ->
  for_each (seq i (length l)) body w = (Return l, w).
Proof.
  revert i. induction l as [| b l IH]; intros i Hbody; [done |].
  simpl. unfold bind.
  pose proof (Hbody 0%nat b eq_refl) as Hhead.
  rewrite Nat.add_0_r in Hhead. rewrite Hhead, IH; [done |].
  intros j b' Hj. replace (S i + j)%nat with (i + S j)%nat by lia.
  by apply Hbody.
Qed.

Lemma hits_of_lookup docs metas (dists : list real) ids (j : nat) h :
  hits_of one_minus docs metas dists ids !! j = Some h ->
  exists doc meta dist id,
    docs !! j = Some doc /\ metas !! j = Some meta /\
    dists !! j = Some dist /\ ids !! j = Some id /\
    h = Hit doc meta (one_minus dist) (Some id).
Proof.
  revert metas dists ids j.
  induction docs as [| doc docs IH]; intros [| meta metas] [| dist dists]
    [| id ids] j Hj; try done.
  destruct j as [| j]; simpl in *.
  - injection Hj as <-. eauto 10.
  - by apply IH.
Qed.

Lemma hits_of_length docs metas (dists : list real) ids :
  length metas = length docs ->
  length dists = length docs ->
  length ids = length docs ->
  length (hits_of one_minus docs metas dists ids) = length docs.
Proof.
  revert metas dists ids.
  induction docs as [| doc docs IH]; intros [| meta metas] [| dist dists]
    [| id ids] H1 H2 H3; simpl in *; try done.
  f_equal. apply IH; lia.
Qed.

(** X19.  A well-formed reply is passed on hit by hit.  When the index answers
    with parallel lists of equal length, [search_similar_content] returns one
    hit per document, in the order of the reply, each with its metadata, its
    id and [1 - distance] as similarity score. *)
Theorem search_hits_follow_reply self coll enc query_text limit
    filter_metadata v reply docs metas dists idss ids w w1 w2 :
  collection self = Some coll ->
  encoder self = Some enc ->
  encode enc query_text w = (Return v, w1) ->
  query coll [v] limit
        (if truthy_dict filter_metadata then filter_metadata else None) w1
    = (Return reply, w2) ->
  q_documents reply !! 0%nat = Some docs ->
  q_metadatas reply !! 0%nat = Some metas ->
  q_distances reply !! 0%nat = Some dists ->
  q_ids reply = Some idss ->
  idss !! 0%nat = Some ids ->
  length metas = length docs ->
  length dists = length docs ->
  length ids = length docs ->
  search_similar_content one_minus self query_text limit filter_metadata w
    = (Return (hits_of one_minus docs metas dists ids), w2) /\
  length (hits_of one_minus docs metas dists ids) = length docs.
Proof.
  intros Hcoll Henc Hencode Hquery Hdocs Hmetas Hdists Hidss Hids H1 H2 H3.
  pose proof (hits_of_length docs metas dists ids H1 H2 H3) as Hlen.
  split; [| done].
  unfold search_similar_content, try_except, bind.
  rewrite Hcoll, Henc, Hencode, Hquery. unfold getindex at 1.
  rewrite Hdocs. simpl. rewrite <- Hlen.
  rewrite for_each_seq_lookup; [done |].
  intros j h Hj. apply hits_of_lookup in Hj
    as (doc & meta & dist & id & Hd & Hm & Hx & Hi & ->).
  unfold bind, getindex, ret. simpl.
  rewrite Hdocs, Hmetas, Hdists, Hidss. simpl.
  rewrite Hd, Hm, Hx, Hids. simpl. by rewrite Hi.
Qed.

Lemma for_each_raises {A B} (l : list A) (body : A -> M B) (E : exn) w a :
  (forall x, (exists b, body x w = (Return b, w)) \/ body x w = (Raise E, w)) ->
  a ∈ l ->
  body a w = (Raise E, w) ->
  for_each l body w = (Raise E, w).
Proof.
  intros Hbody Hin Ha. induction l as [| x l IH]; [by apply elem_of_nil in Hin |].
  simpl. unfold bind.
  destruct (Hbody x) as [[b Hb] | Hx]; [| by rewrite Hx].
  rewrite Hb. apply elem_of_cons in Hin as [-> | Hin]; [congruence |].
  by rewrite IH.
Qed.

(** X20.  One short list voids the whole result.  When the reply carries fewer
    metadata entries than documents, the index error is caught, logged, and
    [search_similar_content] returns the empty list, dropping also the hits
    that were complete. *)
Theorem search_ragged_reply_is_empty self coll enc query_text limit
    filter_metadata v reply docs metas w w1 w2 :
  collection self = Some coll ->
  encoder self = Some enc ->
  encode enc query_text w = (Return v, w1) ->
  query coll [v] limit
        (if truthy_dict filter_metadata then filter_metadata else None) w1
    = (Return reply, w2) ->
  q_documents reply !! 0%nat = Some docs ->
  q_metadatas reply !! 0%nat = Some metas ->
  (length metas < length docs)%nat ->
  search_similar_content one_minus self query_text limit filter_metadata w
    = (Return [],
       logging ERROR "Content search failed: list index out of range" w2).
Proof.
  intros Hcoll Henc Hencode Hquery Hdocs Hmetas Hshort.
  unfold search_similar_content, try_except, bind at 1 2.
  rewrite Hcoll, Henc, Hencode, Hquery. unfold bind at 1, getindex at 1.
  rewrite Hdocs. simpl.
  rewrite (for_each_raises _ _ (IndexError "list index out of range") w2
             (length metas)); [done | | |].
  - intros x. unfold bind, getindex, ret, raise.
    rewrite Hdocs, Hmetas. simpl.
    repeat case_match; simplify_eq/=; eauto.
  - apply elem_of_seq. lia.
  - unfold bind, getindex, ret, raise. rewrite Hdocs, Hmetas. simpl.
    destruct (docs !! length metas) eqn:Hd.
    + simpl. by rewrite (lookup_ge_None_2 metas (length metas)) by lia.
    + apply lookup_ge_None in Hd. lia.
Qed.

(** *** Opening and closing the store *)

(** X21.  [initialize] succeeds only by installing all three attributes, so that
    after a successful [initialize] no call reports "not initialized"; when
    it fails, the error is logged and raised again. *)
Theorem initialize_installs_all chromadb self w :
  match result (initialize chromadb self w) with
  | Return _ =>
      exists c coll enc,
        attributes (initialize chromadb self w)
        = Manager (Some c) (Some coll) (Some enc)
  | Raise e =>
      exists w',
        snd (initialize chromadb self w)
        = logging ERROR ("Vector store initialization failed: " +:+ str_of_exn e) w'
  end.
Proof.
  unfold initialize, mtry_except, mbind, call, assign, mraise, result,
         attributes, log.
  destruct (PersistentClient chromadb w) as [[c | e] w1]; simpl; [| eauto].
  destruct (get_or_create_collection chromadb w1) as [[coll | e] w2]; simpl;
    [| eauto].
  destruct (SentenceTransformer chromadb w2) as [[enc | e] w3]; simpl; eauto.
Qed.


(** X23.  [close] forgets the index and the encoder, whatever the manager held:
    afterwards storing raises "Vector store not initialized", and searching,
    getting and deleting come back empty-handed. *)
Theorem close_resets self content metadata content_id query_text limit
    filter_metadata id w w' :
  let closed := attributes (close self w) in
  result (close self w) = Return () /\
  closed = Manager None None None /\
  fst (store_content hash isoformat closed content metadata content_id w')
    = Raise (Exception "Vector store not initialized") /\
  fst (search_similar_content one_minus closed query_text limit
         filter_metadata w') = Return [] /\
  fst (get_content_by_id closed id w') = Return None /\
  fst (delete_content closed id w') = Return false.
Proof. repeat split. Qed.

(** *** Analytics insights and campaign memory *)

(** X24.  An uninitialized store reads as "no data".  While the collection or the
    encoder is unset, [get_analytics_insights] returns the "No analytics data
    found" answer: the "not initialized" error of the search underneath is
    logged there and never reaches the caller. *)
Theorem insights_hide_uninitialized self client_id days w :
  collection self = None \/ encoder self = None ->
  get_analytics_insights one_minus mean self client_id days w
  = (Return (NoData "No analytics data found" client_id),
     logging ERROR "Content search failed: Vector store not initialized" w).
Proof.
  intros Hnone.
  unfold get_analytics_insights, search_similar_content, try_except, bind,
         raise, ret, log.
  destruct Hnone as [-> | ->]; [done | by destruct (collection self)].
Qed.

(** X25.  [get_analytics_insights] never raises, and a summary it returns is
    about the client and the period asked for, counts at least one hit, and
    never counts more analytics posts than hits. *)
Theorem insights_summary_counts self client_id days w :
  exists answer,
    fst (get_analytics_insights one_minus mean self client_id days w)
      = Return answer /\
    forall c d total avg available,
      answer = Summary c d total avg available ->
      c = client_id /\ d = days /\ 0 <= total <= available /\ 1 <= available.
Proof.
  unfold get_analytics_insights, try_except, bind at 1.
  destruct (search_similar_content _ _ _ _ _ w) as [[hits | e] w1]; simpl.
  - destruct hits as [| h hits]; simpl.
    + eexists. split; [reflexivity | done].
    + unfold bind, pure_call.
      destruct (mean _ _) as [avg | e]; simpl.
      * eexists. split; [reflexivity |].
        intros c d total avg' available [= <- <- <- <- <-].
        pose proof (length_filter
                      (fun c : hit => h_metadata c !! "type" = Some (VStr "analytics"))
                      (h :: hits)) as Hle.
        split; [done | split; [done |]].
        unfold llen. rewrite length_cons in *. lia.
      * eexists. split; [reflexivity | done].
  - eexists. split; [reflexivity | done].
Qed.

(** X26.  A campaign's memory always goes under the id ["campaign_" + campaign_id]:
    that is the only id [store_campaign_memory] can return, so storing a
    campaign again addresses the same record. *)
Theorem campaign_memory_id self campaign_id client_id d w memory_id :
  fst (store_campaign_memory hash isoformat json_dumps self campaign_id
         client_id d w) = Return memory_id ->
  memory_id = "campaign_" +:+ campaign_id.
Proof.
  unfold store_campaign_memory, store_content, try_except, bind, raise, ret,
         log, datetime_now. simpl.
  intros Hret. repeat case_match; simplify_eq/=; done.
Qed.

(** X27.  Before initialization [store_campaign_memory] raises "Vector store not
    initialized" to its caller, after taking the timestamp and logging the
    error twice, once for the store and once for the campaign memory. *)
Theorem campaign_memory_before_initialize self campaign_id client_id d w :
  collection self = None ->
  store_campaign_memory hash isoformat json_dumps self campaign_id client_id
    d w
  = (Raise (Exception "Vector store not initialized"),
     logging ERROR "Campaign memory storage failed: Vector store not initialized"
       (logging ERROR "Content storage failed: Vector store not initialized"
          (World (logged w) (wall w) (S (reads w))))).
Proof.
  intros Hnone.
  unfold store_campaign_memory, store_content, try_except, bind, raise, ret,
         log, datetime_now.
  simpl. by rewrite Hnone.
Qed.

End StoreMore.

(** *** The vector store on concrete backends *)

Lemma store_content_under_given_id_witness :
  fst (VectorStoreManager.store_content length_hash pretty open_store
         "Campaign memory" {[ "type" := VStr "campaign_memory" ]}
         (Some "campaign_42") w0)
  = Return "campaign_42".
Proof.
  destruct (store_content_under_given_id length_hash pretty open_store
              open_collection length_encoder "Campaign memory"
              {[ "type" := VStr "campaign_memory" ]} "campaign_42"
              [15] w0 w0 (World [] (wall w0) 1)
              eq_refl eq_refl ltac:(discriminate) eq_refl eq_refl)
    as (Hstore & _).
  by rewrite Hstore.
Defined.


Lemma search_hits_follow_reply_witness :
  VectorStoreManager.similarity_score
    <$> default [] (returned (fst (VectorStoreManager.search_similar_content
                                     (fun d : Z => 1 - d) open_store
                                     "spring campaigns" 10 None w0)))
  = [1; 0].
Proof.
  destruct (search_hits_follow_reply (fun d : Z => 1 - d) open_store
              open_collection length_encoder "spring campaigns" 10 None
              [16] _ ["spring"; "summer"] [ {[ "type" := VStr "analytics" ]}; ∅ ]
              [0; 1] [["a1"; "a2"]] ["a1"; "a2"] w0 w0 w0
              eq_refl eq_refl eq_refl eq_refl eq_refl eq_refl eq_refl eq_refl
              eq_refl eq_refl eq_refl eq_refl)
    as (Hsearch & _).
  rewrite Hsearch. reflexivity.
Defined.

Lemma search_ragged_reply_witness :
  fst (VectorStoreManager.search_similar_content (fun d : Z => 1 - d)
         ragged_store "spring campaigns" 10 None w0)
  = Return [].
Proof.
  rewrite (search_ragged_reply_is_empty (fun d : Z => 1 - d) ragged_store
             ragged_collection length_encoder "spring campaigns" 10 None
             [16] _ ["spring"; "summer"] [∅] w0 w0 w0
             eq_refl eq_refl eq_refl eq_refl eq_refl eq_refl
             ltac:(simpl; lia)).
  reflexivity.
Defined.


Lemma insights_hide_uninitialized_witness :
  fst (VectorStoreManager.get_analytics_insights (fun d : Z => 1 - d)
         (fun _ _ => Return 0) (@VectorStoreManager.fresh (list Z) Z)
         "client_001" 30 w0)
  = Return (VectorStoreManager.NoData "No analytics data found" "client_001").
Proof.
  rewrite (insights_hide_uninitialized (fun d : Z => 1 - d)
             (fun _ _ => Return 0) (@VectorStoreManager.fresh (list Z) Z)
             "client_001" 30 w0 (or_introl eq_refl)).
  reflexivity.
Defined.

Lemma campaign_memory_id_witness :
  fst (VectorStoreManager.store_campaign_memory length_hash pretty
         (fun _ => "{}") open_store "42" "client_001"
         (VectorStoreManager.Build_campaign_data
            (Some "awareness") (Some ["twitter"]) (Some "completed")
            None None None) w0)
  = Return "campaign_42".
Proof.
  assert (Hret : exists r,
    fst (VectorStoreManager.store_campaign_memory length_hash pretty
           (fun _ => "{}") open_store "42" "client_001"
           (VectorStoreManager.Build_campaign_data
              (Some "awareness") (Some ["twitter"]) (Some "completed")
              None None None) w0) = Return r)
    by (eexists; reflexivity).
  destruct Hret as [r Hr]. rewrite Hr. f_equal.
  exact (campaign_memory_id length_hash pretty (fun _ => "{}") open_store
           "42" "client_001" _ w0 r Hr).
Defined.

Lemma campaign_memory_before_initialize_witness :
  fst (VectorStoreManager.store_campaign_memory length_hash pretty
         (fun _ => "{}") (@VectorStoreManager.fresh (list Z) Z) "42"
         "client_001"
         (VectorStoreManager.Build_campaign_data
            (Some "awareness") (Some ["twitter"]) (Some "completed")
            None None None) w0)
  = Raise (Exception "Vector store not initialized").
Proof.
  rewrite (campaign_memory_before_initialize length_hash pretty
             (fun _ => "{}") (@VectorStoreManager.fresh (list Z) Z) "42"
             "client_001" _ w0 eq_refl).
  reflexivity.
Defined.

(** ** Campaign timestamps *)

Section Timestamps.

Import ExecutiveAgent.

(** X28.  On a clock that does not run backwards, the campaign that
    [execute_campaign] returns was updated no earlier than it was created,
    and its creation time is the first clock reading of the call. *)
Theorem campaign_timestamps_ordered client objective brief platforms
    campaign w state :
  (forall i j : nat, (i <= j)%nat -> wall w i <= wall w j) ->
  fst (execute_campaign client objective brief platforms campaign w)
    = Return state ->
  created_at state = wall w (reads w) /\
  created_at state <= updated_at state.
Proof.
  intros Hclock Hret.
  change (fst (execute_campaign client objective brief platforms campaign w))
    with (Return (State client campaign objective brief platforms ∅ ∅ ∅ ∅ []
                    "completed" (wall w (reads w)) (wall w (4 + reads w))))
    in Hret.
  injection Hret as <-. simpl. split; [done |]. apply Hclock. lia.
Qed.

Lemma campaign_timestamps_witness :
  fst (execute_campaign "client_001" "awareness" "Spring sale" ["twitter"]
         None w0) = Return spring_campaign /\
  created_at spring_campaign <= updated_at spring_campaign.
Proof.
  assert (Hclock : forall i j : nat, (i <= j)%nat -> wall w0 i <= wall w0 j)
    by (intros i j Hij; simpl; lia).
  split; [reflexivity |].
  exact (proj2 (campaign_timestamps_ordered "client_001" "awareness"
                  "Spring sale" ["twitter"] None w0 spring_campaign Hclock
                  eq_refl)).
Defined.

End Timestamps.

(** ** The connector registry *)

Section Connectors.

Import MCP.

Implicit Types (s : state) (w : world) (r : nat).

Lemma dict_set_here {V} key (value : V) d : (key, value) ∈ dict_set key value d.
Proof.
  induction d as [| [k v] d IH]; simpl; [apply list_elem_of_here |].
  destruct (decide (k = key)); [apply list_elem_of_here |].
  by apply list_elem_of_further.
Qed.

Lemma dict_set_other {V} key (value : V) d k v :
  k <> key -> (k, v) ∈ d -> (k, v) ∈ dict_set key value d.
Proof.
  intros Hne. induction d as [| [k' v'] d IH]; simpl;
    [by intros ?%elem_of_nil |].
  intros [[= <- <-] | Hin]%elem_of_cons.
  - destruct (decide (k = key)); [done | apply list_elem_of_here].
  - destruct (decide (k' = key));
      apply list_elem_of_further; [done | by apply IH].
Qed.

Lemma dict_set_keys {V} key (value : V) d k :
  k ∈ (dict_set key value d).*1 -> k = key \/ k ∈ d.*1.
Proof.
  induction d as [| [k' v'] d IH]; simpl.
  - intros [-> | []%elem_of_nil]%elem_of_cons. by left.
  - destruct (decide (k' = key)) as [-> | Hne]; simpl.
    + intros [-> | Hin]%elem_of_cons; [by left | right].
      by apply list_elem_of_further.
    + intros [-> | Hin]%elem_of_cons; [right; apply list_elem_of_here |].
      destruct (IH Hin) as [-> | Hk]; [by left | right].
      by apply list_elem_of_further.
Qed.

Lemma dict_set_NoDup {V} key (value : V) d :
  NoDup d.*1 -> NoDup (dict_set key value d).*1.
Proof.
  induction d as [| [k v] d IH]; simpl; intros Hnd.
  - apply NoDup_singleton.
  - apply NoDup_cons in Hnd as [Hk Hnd].
    destruct (decide (k = key)) as [-> | Hne]; simpl.
    + by apply NoDup_cons.
    + apply NoDup_cons. split; [| by apply IH].
      intros [Heq | Hin]%dict_set_keys; [by apply Hne | by apply Hk].
Qed.

Lemma update_same r f objs : update r f objs r = f (objs r).
Proof. unfold update. by rewrite decide_True. Qed.

Lemma update_other r r' f objs : r' <> r -> update r f objs r' = objs r'.
Proof. intros. unfold update. by rewrite decide_False. Qed.

Lemma listed_kept s l acc n t :
  (n, t) ∈ acc -> n ∉ l.*1 -> (n, t) ∈ fold_left (add_tools s) l acc.
Proof.
  revert acc. induction l as [| [k r] l IH]; intros acc Hin Hfresh; [done |].
  simpl in *. apply not_elem_of_cons in Hfresh as [Hne Hfresh].
  apply IH; [| done].
  destruct (is_connected _); [by apply dict_set_other | done].
Qed.

Lemma listed_found s l acc n r :
  (n, r) ∈ l -> NoDup l.*1 -> is_connected (objects s r) = true ->
  (n, get_tools (cls (objects s r))) ∈ fold_left (add_tools s) l acc.
Proof.
  revert acc. induction l as [| [k r'] l IH]; intros acc Hin Hnd Hon;
    [by apply elem_of_nil in Hin |].
  simpl in *. apply NoDup_cons in Hnd as [Hk Hnd].
  apply elem_of_cons in Hin as [[= <- <-] | Hin].
  - rewrite Hon. apply listed_kept; [apply dict_set_here | done].
  - by apply IH.
Qed.

(** X29.  Registering always succeeds and shows.  [register_connector] returns
    [True] for each of the four connector classes; afterwards the connector
    is connected, the registry holds it under its name, names stay unique,
    and [get_all_tools] lists the tools of its class under that name. *)
Theorem register_connector_registers s r w w' :
  NoDup (connectors s).*1 ->
  let out := register_connector r s w in
  let s' := attributes out in
  let c := objects s r in
  result out = Return true /\
  is_connected (objects s' r) = true /\
  (name c, r) ∈ connectors s' /\
  NoDup (connectors s').*1 /\
  result (get_all_tools s' w') = Return (listing s') /\
  (name c, get_tools (cls c)) ∈ listing s'.
Proof.
  intros Hnd out s' c.
  assert (Hs' : s' = State (update r (set_connected true) (objects s))
                           (dict_set (name c) r (connectors s))).
  { unfold s', out, register_connector, connect, mtry_except, mbind, assign,
           inspect, call, log, mret, attributes. simpl.
    by rewrite update_same. }
  assert (Hon : is_connected (objects s' r) = true)
    by (rewrite Hs'; simpl; by rewrite update_same).
  assert (Hin : (name c, r) ∈ connectors s')
    by (rewrite Hs'; apply dict_set_here).
  assert (Hnd' : NoDup (connectors s').*1)
    by (rewrite Hs'; by apply dict_set_NoDup).
  repeat split; try done.
  replace (get_tools (cls c)) with (get_tools (cls (objects s' r)))
    by (rewrite Hs'; simpl; by rewrite update_same).
  by apply listed_found.
Qed.

Lemma register_connector_witness :
  NoDup (connectors empty_registry).*1 /\
  result (register_connector 0 empty_registry w0) = Return true /\
  listing (attributes (register_connector 0 empty_registry w0))
  = [("social", get_tools FacebookMCP)].
Proof.
  assert (Hnd : NoDup (connectors empty_registry).*1) by constructor.
  destruct (register_connector_registers empty_registry 0 w0 w0 Hnd)
    as (Hres & _).
  refine (conj Hnd (conj Hres _)). reflexivity.
Defined.

Lemma mfor_disconnect l s w :
  let out := mfor l disconnect s w in
  result out = Return () /\
  connectors (attributes out) = connectors s /\
  forall r, objects (attributes out) r
            = if decide (r ∈ l) then set_connected false (objects s r)
              else objects s r.
Proof.
  revert s w. induction l as [| a l IH]; intros s w.
  - repeat split.
  - simpl. unfold mbind at 1.
    unfold disconnect at 1, mbind, assign, inspect, call, log. simpl.
    match goal with
    | |- context [mfor l disconnect ?s1 ?w1] =>
        destruct (IH s1 w1) as (Hres & Hconn & Hobj);
        destruct (mfor l disconnect s1 w1) as [[o s2] w2] eqn:Hrun
    end.
    unfold result, attributes in *. simpl in *. subst o.
    split; [done | split; [done |]].
    intros r. rewrite Hobj. unfold update.
    destruct (decide (r ∈ l)), (decide (r = a)) as [-> |];
      destruct (decide (_ ∈ a :: l)) as [Hin | Hout]; try done.
    + exfalso. apply Hout. by apply list_elem_of_further.
    + exfalso. apply Hout. by apply list_elem_of_further.
    + exfalso. apply Hout. apply list_elem_of_here.
    + apply elem_of_cons in Hin as [? | ?]; done.
Qed.

(** X30.  Shutting down empties the registry and disconnects what was in it.
    After [shutdown] no connector is registered and [get_all_tools] lists
    nothing; every connector that was registered is disconnected, and every
    other object is left as it was, so a connector that an earlier
    registration under the same name had replaced stays connected. *)
Theorem shutdown_disconnects_registered s w w' :
  let out := shutdown s w in
  let s' := attributes out in
  result out = Return () /\
  connectors s' = [] /\
  result (get_all_tools s' w') = Return [] /\
  (forall n r, (n, r) ∈ connectors s -> is_connected (objects s' r) = false) /\
  (forall r, r ∉ (connectors s).*2 -> objects s' r = objects s r).
Proof.
  intros out s'.
  destruct (mfor_disconnect (connectors s).*2 s w) as (Hres & Hconn & Hobj).
  assert (Hs' : result out = Return () /\ connectors s' = [] /\
                forall r, objects s' r
                  = objects (attributes (mfor (connectors s).*2 disconnect s w)) r).
  { unfold s', out, shutdown, mbind, inspect, assign, call, log, result,
           attributes in *. simpl.
    destruct (mfor (connectors s).*2 disconnect s w) as [[o s2] w2].
    simpl in *. by subst o. }
  destruct Hs' as (Hout & Hempty & Hsame).
  split; [done | split; [done | split; [| split]]].
  - unfold get_all_tools, mbind, inspect, mret, result, listing. simpl.
    by rewrite Hempty.
  - intros n r Hin. rewrite Hsame, Hobj, decide_True; [done |].
    apply list_elem_of_fmap. by exists (n, r).
  - intros r Hout'. by rewrite Hsame, Hobj, decide_False.
Qed.

(** The second registration under a name takes the first one's place, and
    [shutdown] then leaves the first connector connected. *)
Lemma replaced_connector_stays_connected :
  let registered :=
    attributes (register_connector 1
                  (attributes (register_connector 0 empty_registry w0)) w0) in
  connectors registered = [("social", 1%nat)] /\
  is_connected (objects (attributes (shutdown registered w0)) 0) = true /\
  is_connected (objects (attributes (shutdown registered w0)) 1) = false.
Proof. repeat split. Qed.

End Connectors.
